(** * The SQLModel field code generator (practice/field_generator_gui.py)

    A shallow embedding of [FieldGeneratorGUI]: the handlers [add_field] and
    [generate_code] and the synthesizer [generate_field_code], with the
    widget-backed state of the class as an explicit record and the message
    boxes as a log.

    Text is modelled by Rocq strings, i.e. byte strings holding the UTF-8
    form of the Python [str].  The Python built-ins used by the source
    ([str.lower], [str.strip], [str.startswith], [in], [float], [sorted],
    [str.join]) are modelled in [Module Py].  [strip] and [float] know the
    white space and the decimal digits of Unicode 14 (CPython 3.11), in
    their UTF-8 form.  Comparing bytes lexicographically is comparing code
    points, so [sorted] is exact; a prefix or an infix of ASCII text is the
    same on bytes and on code points; [lower] maps the ASCII letters only,
    and since it is only ever compared with the ASCII words none, null,
    true and false, and no character outside ASCII has a lower-case form
    made of the letters of these words, these tests are exact too. *)

From Stdlib Require Import Ascii String NArith.
From stdpp Require Import base option list gmap strings sorting.

(** ** Python built-ins *)

Module Py.

Definition code (c : ascii) : N := N_of_ascii c.

Definition in_range (lo hi : N) (c : ascii) : bool :=
  ((lo <=? code c) && (code c <=? hi))%N.

Definition is_upper (c : ascii) : bool := in_range 65 90 c.
Definition is_digit (c : ascii) : bool := in_range 48 57 c.

(** [Py_UNICODE_ISSPACE]: the code points that [str.isspace] and
    [str.strip] take for white space. *)
Definition isspace (cp : N) : bool :=
  ((9 <=? cp) && (cp <=? 13) || (28 <=? cp) && (cp <=? 32)
   || (cp =? 133) || (cp =? 160) || (cp =? 5760)
   || (8192 <=? cp) && (cp <=? 8202) || (cp =? 8232) || (cp =? 8233)
   || (cp =? 8239) || (cp =? 8287) || (cp =? 12288))%N.

(** [Py_ISSPACE] of the C parsers: TAB..CR and the space. *)
Definition c_isspace (c : ascii) : bool := in_range 9 13 c || in_range 32 32 c.

Definition lower_char (c : ascii) : ascii :=
  if is_upper c then ascii_of_N (code c + 32) else c.

(** [s.lower()] *)
Fixpoint lower (s : string) : string :=
  match s with
  | EmptyString => EmptyString
  | String c r => String (lower_char c) (lower r)
  end.

Definition byte (n : N) (c : ascii) : bool := (code c =? n)%N.

(** The same white space in UTF-8, by the number of bytes: the one-byte
    characters; U+0085 and U+00A0; U+1680, U+2000..U+200A, U+2028, U+2029,
    U+202F, U+205F and U+3000. *)
Definition space1 (c : ascii) : bool := in_range 9 13 c || in_range 28 32 c.

Definition space2 (c d : ascii) : bool :=
  byte 194 c && (byte 133 d || byte 160 d).

Definition space3 (c d e : ascii) : bool :=
  byte 225 c && byte 154 d && byte 128 e
  || byte 226 c && byte 128 d
     && (in_range 128 138 e || in_range 168 169 e || byte 175 e)
  || byte 226 c && byte 129 d && byte 159 e
  || byte 227 c && byte 128 d && byte 128 e.

(** [s.lstrip()] *)
Fixpoint lstrip (s : string) : string :=
  match s with
  | EmptyString => EmptyString
  | String c r =>
      if space1 c then lstrip r
      else
        match r with
        | String d r1 =>
            if space2 c d then lstrip r1
            else
              match r1 with
              | String e r2 => if space3 c d e then lstrip r2 else s
              | EmptyString => s
              end
        | EmptyString => s
        end
  end.

(** [s.isspace()], also true of the empty string here. *)
Fixpoint all_space (s : string) : bool :=
  match s with
  | EmptyString => true
  | String c r =>
      if space1 c then all_space r
      else
        match r with
        | String d r1 =>
            if space2 c d then all_space r1
            else
              match r1 with
              | String e r2 => if space3 c d e then all_space r2 else false
              | EmptyString => false
              end
        | EmptyString => false
        end
  end.

(** [s.rstrip()]: cut where the rest is white space. *)
Fixpoint rstrip (s : string) : string :=
  match s with
  | EmptyString => EmptyString
  | String c r => if all_space s then EmptyString else String c (rstrip r)
  end.

(** [s.strip()] *)
Definition strip (s : string) : string := rstrip (lstrip s).

(** [s.startswith(p)] *)
Definition startswith (s p : string) : bool := String.prefix p s.

(** [needle in hay] on strings *)
Fixpoint contains (needle hay : string) : bool :=
  String.prefix needle hay ||
  match hay with
  | EmptyString => false
  | String _ r => contains needle r
  end.

(** [x in l] on a list of strings *)
Definition in_list (x : string) (l : list string) : bool :=
  existsb (String.eqb x) l.

(** [bool(s)] for a string or [None]: empty and [None] are false. *)
Definition truthy (o : option string) : bool :=
  match o with
  | Some (String _ _) => true
  | _ => false
  end.

(** [sep.join(l)] *)
Definition join (sep : string) (l : list string) : string := String.concat sep l.

(** [sorted(l)] on strings: ascending by code point. *)
Definition sorted (l : list string) : list string := merge_sort String.le l.

(** *** Code points *)

(** A continuation byte of UTF-8. *)
Definition cont (c : ascii) : bool := in_range 128 191 c.

(** The code points of a UTF-8 string; a byte that starts no character
    stands for U+FFFD. *)
Fixpoint decode (s : string) : list N :=
  match s with
  | EmptyString => []
  | String c r =>
      if (code c <? 128)%N then code c :: decode r
      else
        match r with
        | String d r1 =>
            if in_range 194 223 c && cont d then
              ((code c - 192) * 64 + (code d - 128))%N :: decode r1
            else
              match r1 with
              | String e r2 =>
                  if in_range 224 239 c && cont d && cont e then
                    (((code c - 224) * 64 + (code d - 128)) * 64
                     + (code e - 128))%N :: decode r2
                  else
                    match r2 with
                    | String f r3 =>
                        if in_range 240 244 c && cont d && cont e && cont f then
                          ((((code c - 240) * 64 + (code d - 128)) * 64
                            + (code e - 128)) * 64 + (code f - 128))%N
                          :: decode r3
                        else 65533%N :: decode r
                    | EmptyString => 65533%N :: decode r
                    end
              | EmptyString => 65533%N :: decode r
              end
        | EmptyString => [65533%N]
        end
  end.

(** The UTF-8 form of a code point. *)
Definition encode (cp : N) : string :=
  let b (n : N) := String (ascii_of_N n) EmptyString in
  (if cp <? 128 then b cp
   else if cp <? 2048 then b (192 + cp / 64) +:+ b (128 + cp mod 64)
   else if cp <? 65536 then
     b (224 + cp / 4096) +:+ b (128 + (cp / 64) mod 64) +:+ b (128 + cp mod 64)
   else
     b (240 + cp / 262144) +:+ b (128 + (cp / 4096) mod 64)
     +:+ b (128 + (cp / 64) mod 64) +:+ b (128 + cp mod 64))%N.

(** The decimal digits of Unicode (category Nd): the first code point of
    each run and its length; the digits of a run go 0 to 9 again and
    again. *)
Definition decimal_runs : list (N * N) :=
  [(48, 10); (1632, 10); (1776, 10); (1984, 10); (2406, 10); (2534, 10);
   (2662, 10); (2790, 10); (2918, 10); (3046, 10); (3174, 10); (3302, 10);
   (3430, 10); (3558, 10); (3664, 10); (3792, 10); (3872, 10); (4160, 10);
   (4240, 10); (6112, 10); (6160, 10); (6470, 10); (6608, 10); (6784, 10);
   (6800, 10); (6992, 10); (7088, 10); (7232, 10); (7248, 10); (42528, 10);
   (43216, 10); (43264, 10); (43472, 10); (43504, 10); (43600, 10);
   (44016, 10); (65296, 10); (66720, 10); (68912, 10); (69734, 10);
   (69872, 10); (69942, 10); (70096, 10); (70384, 10); (70736, 10);
   (70864, 10); (71248, 10); (71360, 10); (71472, 10); (71904, 10);
   (72016, 10); (72784, 10); (73040, 10); (73120, 10); (92768, 10);
   (92864, 10); (93008, 10); (120782, 50); (123200, 10); (123632, 10);
   (125264, 10); (130032, 10)]%N.

(** [Py_UNICODE_TODECIMAL] *)
Definition decimal (cp : N) : option N :=
  match find (λ run, (fst run <=? cp) && (cp <? fst run + snd run))%N
          decimal_runs with
  | Some run => Some ((cp - fst run) mod 10)%N
  | None => None
  end.

(** *** [float(s)]

    The source calls [float] only to see whether it raises, so the model
    is the recognizer of CPython's [PyFloat_FromString]:
    [_PyUnicode_TransformDecimalAndSpaceToASCII] (a digit of any script
    becomes its ASCII digit, white space outside ASCII a space, and the
    text ends at the first other character outside ASCII, replaced by a
    question mark), then the underscore rule of
    [_Py_string_to_number_with_underscores], then white space stripped on
    both sides, then [_PyOS_ascii_strtod] (sign, digits with an optional
    point, optional exponent; else inf, infinity or nan in any case), which
    must consume everything up to the trailing white space. *)

Fixpoint to_ascii (cps : list N) : string :=
  match cps with
  | [] => EmptyString
  | cp :: r =>
      if (cp <? 127)%N then String (ascii_of_N cp) (to_ascii r)
      else if isspace cp then String " " (to_ascii r)
      else
        match decimal cp with
        | Some d => String (ascii_of_N (48 + d)) (to_ascii r)
        | None => String "?" EmptyString
        end
  end.

(** An underscore stands only between two digits. *)
Fixpoint underscores_ok (prev : ascii) (s : string) : bool :=
  match s with
  | EmptyString => negb (Ascii.eqb prev "_")
  | String c r =>
      (if Ascii.eqb c "_" then is_digit prev
       else negb (Ascii.eqb prev "_") || is_digit c)
      && underscores_ok c r
  end.

Fixpoint drop_underscores (s : string) : string :=
  match s with
  | EmptyString => EmptyString
  | String c r => if Ascii.eqb c "_" then drop_underscores r
                  else String c (drop_underscores r)
  end.

Fixpoint skip_space (s : string) : string :=
  match s with
  | EmptyString => EmptyString
  | String c r => if c_isspace c then skip_space r else s
  end.

Fixpoint skip_digits (s : string) : string :=
  match s with
  | EmptyString => EmptyString
  | String c r => if is_digit c then skip_digits r else s
  end.

(** One digit or more; the rest of the string, if there was one. *)
Definition digits1 (s : string) : option string :=
  match s with
  | String c r => if is_digit c then Some (skip_digits r) else None
  | EmptyString => None
  end.

Definition skip_sign (s : string) : string :=
  match s with
  | String c r => if Ascii.eqb c "+" || Ascii.eqb c "-" then r else s
  | EmptyString => s
  end.

(** digits [. [digits]] or . digits *)
Definition mantissa (s : string) : option string :=
  match digits1 s with
  | Some (String "." r) => Some (skip_digits r)
  | Some r => Some r
  | None =>
      match s with
      | String "." r => digits1 r
      | _ => None
      end
  end.

(** An exponent is taken only if it is complete. *)
Definition exponent (s : string) : string :=
  match s with
  | String c r =>
      if Ascii.eqb c "e" || Ascii.eqb c "E" then
        match digits1 (skip_sign r) with
        | Some r' => r'
        | None => s
        end
      else s
  | EmptyString => s
  end.

(** Case-insensitive match of the lower-case word [w] at the head of [s]. *)
Fixpoint match_word (w s : string) : option string :=
  match w, s with
  | EmptyString, _ => Some s
  | String a w', String c r =>
      if Ascii.eqb (lower_char c) a then match_word w' r else None
  | String _ _, EmptyString => None
  end.

Definition inf_or_nan (s : string) : option string :=
  match match_word "inf" s with
  | Some r =>
      match match_word "inity" r with
      | Some r' => Some r'
      | None => Some r
      end
  | None => match_word "nan" s
  end.

(** What [_PyOS_ascii_strtod] consumes; [None] when it consumes nothing. *)
Definition strtod (s : string) : option string :=
  match mantissa (skip_sign s) with
  | Some r => Some (exponent r)
  | None => inf_or_nan (skip_sign s)
  end.

Definition float_accepts (s : string) : bool :=
  let t := to_ascii (decode s) in
  underscores_ok "000" t &&
  match strtod (skip_space (drop_underscores t)) with
  | Some r => match skip_space r with EmptyString => true | _ => false end
  | None => false
  end.

End Py.

(** ** Exceptions *)

Inductive exn : Type :=
  | ValueError
  | KeyError (key : string).

(** A call either returns a value or raises. *)
Inductive raises (A : Type) : Type :=
  | returned (a : A)
  | raised (e : exn).
Arguments returned {A} a.
Arguments raised {A} e.

#[export] Instance raises_ret : MRet raises := λ A x, returned x.
#[export] Instance raises_bind : MBind raises :=
  λ A B f m, match m with raised e => raised e | returned x => f x end.

Definition raise {A} (e : exn) : raises A := raised e.

(** [try: body / except ValueError: handler] *)
Definition try_except_ValueError {A} (body handler : raises A) : raises A :=
  match body with
  | raised ValueError => handler
  | other => other
  end.

(** [float(s)], its value dropped. *)
Definition float (s : string) : raises unit :=
  if Py.float_accepts s then mret () else raise ValueError.

(** ** Field descriptors

    The dictionary [field_info] built by [add_field]; an entry that is
    [None] in Python is [None] here. *)

Record field_info : Type := {
  name : string;
  type : string;
  optional : bool;
  primary_key : bool;
  default : option string;
  description : option string;
  min_value : option string;
  max_value : option string;
  decimal_places : option string
}.

(** [self.field_types]: combobox label to type text, in source order. *)
Definition field_types : list (string * string) :=
  [ ("整数 (int)", "int");
    ("字符串 (str)", "str");
    ("布尔值 (bool)", "bool");
    ("浮点数 (float)", "float");
    ("精确小数 (Decimal)", "Decimal");
    ("日期时间 (datetime)", "datetime");
    ("日期 (date)", "date");
    ("时间 (time)", "time");
    ("UUID", "uuid.UUID");
    ("枚举 (Enum)", "Enum");
    ("JSON 字典 (Dict)", "Dict[str, Any]");
    ("字符串列表 (List[str])", "List[str]") ].

(** [d[key]] on [field_types]: [KeyError] for an unknown key. *)
Fixpoint getitem (d : list (string * string)) (key : string) : raises string :=
  match d with
  | [] => raise (KeyError key)
  | (k, v) :: d' => if String.eqb k key then mret v else getitem d' key
  end.

(** The double quote, and [str(x)] as an f-string formats a string or [None]. *)
Definition dq : string := String "034"%char EmptyString.

Definition str (o : option string) : string :=
  match o with
  | Some s => s
  | None => "None"
  end.

(** ** The declaration synthesizer: [generate_field_code] *)

(** Lines 338-355: the token for a default that is not [None]. *)
Definition default_param (d : string) : raises string :=
  if Py.in_list (Py.lower d) ["none"; "null"] then mret "default=None"
  else if String.eqb (Py.lower d) "true" then mret "default=True"
  else if String.eqb (Py.lower d) "false" then mret "default=False"
  else if Py.startswith d "datetime." then mret ("default_factory=" +:+ d)
  else if Py.startswith d "uuid." then mret ("default_factory=" +:+ d)
  else
    try_except_ValueError
      (_ ← float d; mret ("default=" +:+ d))
      (mret ("default=" +:+ dq +:+ d +:+ dq)).

(** Lines 334-386: the list [field_params], one append after the other. *)
Definition build_field_params (field_info : field_info) : raises (list string) :=
  let field_type := type field_info in
  let field_params : list string := [] in
  field_params ←
    match default field_info return raises (list string) with
    | Some d => (p ← default_param d; mret (field_params ++ [p]))
    | None =>
        (if optional field_info then mret (field_params ++ ["default=None"])
         else mret field_params)
    end;
  let field_params :=
    if primary_key field_info then field_params ++ ["primary_key=True"]
    else field_params in
  let field_params :=
    if Py.truthy (min_value field_info) then
      if String.eqb field_type "str"
      then field_params ++ ["min_length=" +:+ str (min_value field_info)]
      else field_params ++ ["ge=" +:+ str (min_value field_info)]
    else field_params in
  let field_params :=
    if Py.truthy (max_value field_info) then
      if String.eqb field_type "str"
      then field_params ++ ["max_length=" +:+ str (max_value field_info)]
      else field_params ++ ["le=" +:+ str (max_value field_info)]
    else field_params in
  let field_params :=
    if String.eqb field_type "Decimal" then
      let field_params :=
        if Py.truthy (max_value field_info)
        then field_params ++ ["max_digits=" +:+ str (max_value field_info)]
        else field_params in
      if Py.truthy (decimal_places field_info)
      then field_params ++ ["decimal_places=" +:+ str (decimal_places field_info)]
      else field_params
    else field_params in
  let field_params :=
    if Py.truthy (description field_info)
    then field_params ++ ["description=" +:+ dq +:+ str (description field_info) +:+ dq]
    else field_params in
  mret field_params.

(** Lines 322-394. *)
Definition generate_field_code (field_info : field_info) : raises string :=
  let name := name field_info in
  let field_type := type field_info in
  let type_annotation :=
    if optional field_info then "Optional[" +:+ field_type +:+ "]"
    else field_type in
  field_params ← build_field_params field_info;
  let field_def :=
    match field_params with
    | [] => "Field()"
    | _ => "Field(" +:+ Py.join ", " field_params +:+ ")"
    end in
  mret (name +:+ ": " +:+ type_annotation +:+ " = " +:+ field_def).

(** ** The state of the window

    The Tk variables of the input form, the list [self.fields], the list
    box, the text of the output pane, and the message boxes shown so far
    (oldest first). *)

Inductive dialog : Type :=
  | showerror (title message : string)
  | showwarning (title message : string)
  | showinfo (title message : string).

Inductive widget_state : Type := normal | disabled.

Record FieldGeneratorGUI : Type := {
  field_name_var : string;
  field_type_var : string;
  optional_var : bool;
  primary_key_var : bool;
  default_value_var : string;
  description_var : string;
  min_value_var : string;
  max_value_var : string;
  decimal_places_var : string;
  decimal_entry : widget_state;
  fields : list field_info;
  field_listbox : list string;
  code_text : string;
  messagebox : list dialog
}.

Definition show (d : dialog) (self : FieldGeneratorGUI) : FieldGeneratorGUI :=
  {| field_name_var := field_name_var self;
     field_type_var := field_type_var self;
     optional_var := optional_var self;
     primary_key_var := primary_key_var self;
     default_value_var := default_value_var self;
     description_var := description_var self;
     min_value_var := min_value_var self;
     max_value_var := max_value_var self;
     decimal_places_var := decimal_places_var self;
     decimal_entry := decimal_entry self;
     fields := fields self;
     field_listbox := field_listbox self;
     code_text := code_text self;
     messagebox := messagebox self ++ [d] |}.

(** [self.fields.append(field_info)] and [self.field_listbox.insert(tk.END, text)] *)
Definition append_field (field_info : field_info) (display_text : string)
    (self : FieldGeneratorGUI) : FieldGeneratorGUI :=
  {| field_name_var := field_name_var self;
     field_type_var := field_type_var self;
     optional_var := optional_var self;
     primary_key_var := primary_key_var self;
     default_value_var := default_value_var self;
     description_var := description_var self;
     min_value_var := min_value_var self;
     max_value_var := max_value_var self;
     decimal_places_var := decimal_places_var self;
     decimal_entry := decimal_entry self;
     fields := fields self ++ [field_info];
     field_listbox := field_listbox self ++ [display_text];
     code_text := code_text self;
     messagebox := messagebox self |}.

(** [self.code_text.delete(1.0, tk.END)] then [self.code_text.insert(1.0, text)] *)
Definition set_code_text (text : string) (self : FieldGeneratorGUI) : FieldGeneratorGUI :=
  {| field_name_var := field_name_var self;
     field_type_var := field_type_var self;
     optional_var := optional_var self;
     primary_key_var := primary_key_var self;
     default_value_var := default_value_var self;
     description_var := description_var self;
     min_value_var := min_value_var self;
     max_value_var := max_value_var self;
     decimal_places_var := decimal_places_var self;
     decimal_entry := decimal_entry self;
     fields := fields self;
     field_listbox := field_listbox self;
     code_text := text;
     messagebox := messagebox self |}.

Definition clear_inputs (self : FieldGeneratorGUI) : FieldGeneratorGUI :=
  {| field_name_var := "";
     field_type_var := "";
     optional_var := false;
     primary_key_var := false;
     default_value_var := "";
     description_var := "";
     min_value_var := "";
     max_value_var := "";
     decimal_places_var := "";
     decimal_entry := disabled;
     fields := fields self;
     field_listbox := field_listbox self;
     code_text := code_text self;
     messagebox := messagebox self |}.

(** ** [add_field] *)

(** [x.strip() if x.strip() else None] *)
Definition strip_or_None (x : string) : option string :=
  match Py.strip x with
  | EmptyString => None
  | s => Some s
  end.

Definition add_field (self : FieldGeneratorGUI) : raises FieldGeneratorGUI :=
  match Py.strip (field_name_var self) with
  | EmptyString => mret (show (showerror "错误" "请输入字段名称") self)
  | _ =>
  match field_type_var self with
  | EmptyString => mret (show (showerror "错误" "请选择字段类型") self)
  | _ =>
    field_type ← getitem field_types (field_type_var self);
    let field_info :=
      {| name := Py.strip (field_name_var self);
         type := field_type;
         optional := optional_var self;
         primary_key := primary_key_var self;
         default := strip_or_None (default_value_var self);
         description := strip_or_None (description_var self);
         min_value := strip_or_None (min_value_var self);
         max_value := strip_or_None (max_value_var self);
         decimal_places := strip_or_None (decimal_places_var self) |} in
    let display_text := name field_info +:+ " (" +:+ type field_info +:+ ")" in
    let display_text :=
      if optional field_info then display_text +:+ " [可选]" else display_text in
    let display_text :=
      if primary_key field_info then display_text +:+ " [主键]" else display_text in
    let self := append_field field_info display_text self in
    let self := clear_inputs self in
    mret (show (showinfo "成功" ("字段 '" +:+ name field_info +:+ "' 已添加")) self)
  end
  end.

(** ** [generate_code] *)

(** Lines 294-302: one turn of the loop over [self.fields]. *)
Definition add_import (imports : gset string) (field : field_info) : gset string :=
  if String.eqb (type field) "Decimal" then
    imports ∪ {[ "from decimal import Decimal" ]}
  else if Py.in_list (type field) ["datetime"; "date"; "time"] then
    imports ∪ {[ "from datetime import datetime, date, time" ]}
  else if String.eqb (type field) "uuid.UUID" then
    imports ∪ {[ "import uuid" ]}
  else if Py.contains "Dict" (type field) || Py.contains "List" (type field) then
    imports ∪ {[ "from typing import Dict, List, Any" ]}
  else imports.

(** Lines 289-302: the set [imports]. *)
Definition collect_imports (fields : list field_info) : gset string :=
  let imports : gset string := ∅ in
  let imports := imports ∪ {[ "from typing import Optional" ]} in
  let imports := imports ∪ {[ "from sqlmodel import SQLModel, Field" ]} in
  fold_left add_import fields imports.

(** Lines 312-314: the loop that appends one line for each field. *)
Fixpoint append_field_lines (fields : list field_info) (code_lines : list string)
    : raises (list string) :=
  match fields with
  | [] => mret code_lines
  | field :: fields' =>
      field_code ← generate_field_code field;
      append_field_lines fields' (code_lines ++ ["    " +:+ field_code])
  end.

(** Lines 305-314: the list [code_lines]. *)
Definition build_code_lines (fields : list field_info) : raises (list string) :=
  let imports := collect_imports fields in
  let code_lines : list string := [] in
  let code_lines := code_lines ++ Py.sorted (elements imports) in
  let code_lines := code_lines ++ [""] in
  let code_lines := code_lines ++ ["class GeneratedModel(SQLModel, table=True):"] in
  let code_lines :=
    code_lines ++ ["    " +:+ dq +:+ dq +:+ dq +:+ "自动生成的模型类" +:+ dq +:+ dq +:+ dq] in
  let code_lines := code_lines ++ [""] in
  append_field_lines fields code_lines.

Definition newline : string := String "010"%char EmptyString.

Definition generate_code (self : FieldGeneratorGUI) : raises FieldGeneratorGUI :=
  match fields self with
  | [] => mret (show (showwarning "警告" "请先添加字段") self)
  | _ =>
      code_lines ← build_code_lines (fields self);
      let self := set_code_text (Py.join newline code_lines) self in
      mret (show (showinfo "成功" "代码生成完成！") self)
  end.

(** ** The other handlers

    What a handler reads from the user or from Tk is an argument: the
    selection of the list box ([curselection], indices in ascending
    order), the answer to [askyesno], the clipboard. *)

(** [self.decimal_entry.config(state=...)] and [self.decimal_places_var.set(...)] *)
Definition config_decimal_entry (state : widget_state) (places : string)
    (self : FieldGeneratorGUI) : FieldGeneratorGUI :=
  {| field_name_var := field_name_var self;
     field_type_var := field_type_var self;
     optional_var := optional_var self;
     primary_key_var := primary_key_var self;
     default_value_var := default_value_var self;
     description_var := description_var self;
     min_value_var := min_value_var self;
     max_value_var := max_value_var self;
     decimal_places_var := places;
     decimal_entry := state;
     fields := fields self;
     field_listbox := field_listbox self;
     code_text := code_text self;
     messagebox := messagebox self |}.

(** Lines 193-202. *)
Definition on_type_change (self : FieldGeneratorGUI) : FieldGeneratorGUI :=
  let selected_type := field_type_var self in
  if Py.contains "Decimal" selected_type
  then config_decimal_entry normal (decimal_places_var self) self
  else config_decimal_entry disabled "" self.

(** [del self.fields[index]] and [self.field_listbox.delete(index)]; Tk
    ignores an index past the end of the list box. *)
Definition delete_field (index : nat) (self : FieldGeneratorGUI) : FieldGeneratorGUI :=
  {| field_name_var := field_name_var self;
     field_type_var := field_type_var self;
     optional_var := optional_var self;
     primary_key_var := primary_key_var self;
     default_value_var := default_value_var self;
     description_var := description_var self;
     min_value_var := min_value_var self;
     max_value_var := max_value_var self;
     decimal_places_var := decimal_places_var self;
     decimal_entry := decimal_entry self;
     fields := delete index (fields self);
     field_listbox := delete index (field_listbox self);
     code_text := code_text self;
     messagebox := messagebox self |}.

(** The one exception of [remove_field]: [self.fields[index]] past the end. *)
Inductive IndexError : Type := list_index_out_of_range.

(** Lines 245-259. *)
Definition remove_field (selection : list nat) (self : FieldGeneratorGUI)
    : IndexError + FieldGeneratorGUI :=
  match selection with
  | [] => inr (show (showwarning "警告" "请选择要删除的字段") self)
  | index :: _ =>
      match fields self !! index with
      | None => inl list_index_out_of_range
      | Some field =>
          let field_name := name field in
          let self := delete_field index self in
          inr (show (showinfo "成功" ("字段 '" +:+ field_name +:+ "' 已删除")) self)
      end
  end.

(** [self.fields.clear()], [self.field_listbox.delete(0, tk.END)] and
    [self.code_text.delete(1.0, tk.END)] *)
Definition clear_lists (self : FieldGeneratorGUI) : FieldGeneratorGUI :=
  {| field_name_var := field_name_var self;
     field_type_var := field_type_var self;
     optional_var := optional_var self;
     primary_key_var := primary_key_var self;
     default_value_var := default_value_var self;
     description_var := description_var self;
     min_value_var := min_value_var self;
     max_value_var := max_value_var self;
     decimal_places_var := decimal_places_var self;
     decimal_entry := decimal_entry self;
     fields := [];
     field_listbox := [];
     code_text := "";
     messagebox := messagebox self |}.

(** Lines 274-280; [answer] is what [askyesno] returns. *)
Definition clear_all (answer : bool) (self : FieldGeneratorGUI) : FieldGeneratorGUI :=
  if answer then clear_inputs (clear_lists self) else self.

(** [self.code_text.get(1.0, tk.END)]: a Tk text ends with a newline. *)
Definition code_text_get (self : FieldGeneratorGUI) : string :=
  code_text self +:+ newline.

(** Lines 396-405; the clipboard goes in and comes out. *)
Definition copy_code (self : FieldGeneratorGUI) (clipboard : string)
    : FieldGeneratorGUI * string :=
  let code := Py.strip (code_text_get self) in
  match code with
  | EmptyString => (show (showwarning "警告" "没有可复制的代码") self, clipboard)
  | _ =>
      let clipboard := "" in
      let clipboard := clipboard +:+ code in
      (show (showinfo "成功" "代码已复制到剪贴板") self, clipboard)
  end.

(** * Notions used in the statements *)

(** The five outcomes of the spec for a raw default string. *)
Inductive default_kind : Type :=
  | null_default
  | boolean_default
  | factory_default
  | numeric_default
  | string_default.

(** The spec's rule: none and null, then true and false, in any case; then
    a factory prefix; then a number; else a string. *)
Definition classify (d : string) : default_kind :=
  if Py.in_list (Py.lower d) ["none"; "null"] then null_default
  else if Py.in_list (Py.lower d) ["true"; "false"] then boolean_default
  else if Py.startswith d "datetime." || Py.startswith d "uuid." then factory_default
  else if Py.float_accepts d then numeric_default
  else string_default.

(** The token that witnesses an outcome. *)
Definition outcome (d tok : string) (k : default_kind) : Prop :=
  match k with
  | null_default => tok = "default=None"
  | boolean_default => tok = "default=True" ∨ tok = "default=False"
  | factory_default => tok = "default_factory=" +:+ d
  | numeric_default => tok = "default=" +:+ d ∧ float d = returned ()
  | string_default => tok = "default=" +:+ dq +:+ d +:+ dq
  end.

(** Lines 337-357 on their own. *)
Definition default_params (f : field_info) : raises (list string) :=
  match default f with
  | Some d => p ← default_param d; mret [p]
  | None => mret (if optional f then ["default=None"] else [])
  end.

(** Lines 360-386 on their own: no call in them can raise. *)
Definition constraint_params (f : field_info) : list string :=
  (if primary_key f then ["primary_key=True"] else []) ++
  (if Py.truthy (min_value f)
   then [(if String.eqb (type f) "str" then "min_length=" else "ge=")
           +:+ str (min_value f)]
   else []) ++
  (if Py.truthy (max_value f)
   then [(if String.eqb (type f) "str" then "max_length=" else "le=")
           +:+ str (max_value f)]
   else []) ++
  (if String.eqb (type f) "Decimal"
   then (if Py.truthy (max_value f)
         then ["max_digits=" +:+ str (max_value f)] else []) ++
        (if Py.truthy (decimal_places f)
         then ["decimal_places=" +:+ str (decimal_places f)] else [])
   else []) ++
  (if Py.truthy (description f)
   then ["description=" +:+ dq +:+ str (description f) +:+ dq]
   else []).

(** The same descriptor with another default. *)
Definition with_default (d : option string) (f : field_info) : field_info :=
  {| name := name f; type := type f; optional := optional f;
     primary_key := primary_key f; default := d;
     description := description f; min_value := min_value f;
     max_value := max_value f; decimal_places := decimal_places f |}.

(** A bound is present when the entry holds text.  [add_field] stores
    [None] for a blank entry, and lines 364-385 test the truth value of the
    entry, which is false for [None] and for the empty string alike. *)
Definition present (o : option string) (v : string) : Prop :=
  o = Some v ∧ v ≠ "".

Definition typing_optional : string := "from typing import Optional".
Definition sqlmodel_field : string := "from sqlmodel import SQLModel, Field".
Definition datetime_support : string := "from datetime import datetime, date, time".

(** The four lines between the imports and the declarations. *)
Definition class_header : list string :=
  [ "";
    "class GeneratedModel(SQLModel, table=True):";
    "    " +:+ dq +:+ dq +:+ dq +:+ "自动生成的模型类" +:+ dq +:+ dq +:+ dq;
    "" ].

(** The spec's names for the two refusals.  The window reports a refusal
    by a message box and returns; [reported] reads the box. *)
Inductive ValidationError : Type :=
  | empty_input
  | missing_required_field.

Definition reported (d : dialog) : option ValidationError :=
  match d with
  | showwarning _ message =>
      if String.eqb message "请先添加字段" then Some empty_input else None
  | showerror _ message =>
      if String.eqb message "请输入字段名称" || String.eqb message "请选择字段类型"
      then Some missing_required_field else None
  | showinfo _ _ => None
  end.

(** A handler refuses with [e]: it shows a box that reports [e] and leaves
    the rest of the window as it was. *)
Definition refuses (before after : FieldGeneratorGUI) (e : ValidationError) : Prop :=
  ∃ d, after = show d before ∧ reported d = Some e.

(** The descriptor [add_field] builds from the form, given the type text. *)
Definition field_of_form (self : FieldGeneratorGUI) (field_type : string) : field_info :=
  {| name := Py.strip (field_name_var self);
     type := field_type;
     optional := optional_var self;
     primary_key := primary_key_var self;
     default := strip_or_None (default_value_var self);
     description := strip_or_None (description_var self);
     min_value := strip_or_None (min_value_var self);
     max_value := strip_or_None (max_value_var self);
     decimal_places := strip_or_None (decimal_places_var self) |}.

(** The same descriptor with another entry for the decimal places. *)
Definition with_places (p : option string) (f : field_info) : field_info :=
  {| name := name f; type := type f; optional := optional f;
     primary_key := primary_key f; default := default f;
     description := description f; min_value := min_value f;
     max_value := max_value f; decimal_places := p |}.

(** The keyword of a token: its text before the first equals sign. *)
Fixpoint key_of (tok : string) : string :=
  match tok with
  | EmptyString => EmptyString
  | String c r => if Ascii.eqb c "=" then EmptyString else String c (key_of r)
  end.

(** Lines 232-236: the list box line of a descriptor. *)
Definition display_text (f : field_info) : string :=
  let display_text := name f +:+ " (" +:+ type f +:+ ")" in
  let display_text :=
    if optional f then display_text +:+ " [可选]" else display_text in
  if primary_key f then display_text +:+ " [主键]" else display_text.

(** The list box shows the field list, line by line. *)
Definition in_step (self : FieldGeneratorGUI) : Prop :=
  field_listbox self = map display_text (fields self).

(** A descriptor as [add_field] stores them: a name with text and no white
    space around it, one of the twelve type texts, and entries that are
    [None] or hold text. *)
Definition stored_ok (f : field_info) : Prop :=
  name f ≠ "" ∧ Py.strip (name f) = name f ∧
  type f ∈ map snd field_types ∧
  (∀ o, o ∈ [default f; description f; min_value f; max_value f;
             decimal_places f] → o ≠ Some "").

(** A descriptor with nothing to say in the call of Field. *)
Definition bare (f : field_info) : Prop :=
  default f = None ∧ optional f = false ∧ primary_key f = false ∧
  Py.truthy (min_value f) = false ∧ Py.truthy (max_value f) = false ∧
  (type f = "Decimal" → Py.truthy (decimal_places f) = false) ∧
  Py.truthy (description f) = false.

(** The text starts with a white space character. *)
Definition ws_head (s : string) : bool :=
  match s with
  | String c r =>
      Py.space1 c ||
      match r with
      | String d r1 =>
          Py.space2 c d ||
          match r1 with
          | String e _ => Py.space3 c d e
          | EmptyString => false
          end
      | EmptyString => false
      end
  | EmptyString => false
  end.

(** A byte of ASCII that is no white space. *)
Definition text_byte (c : ascii) : bool :=
  (Py.code c <? 128)%N && negb (Py.space1 c).

(** Every code point from [cp] on, [n] of them, passes [p]. *)
Fixpoint for_all_from (cp : N) (n : nat) (p : N → bool) : bool :=
  match n with
  | O => true
  | S k => if p cp then for_all_from (N.succ cp) k p else false
  end.

(** The same text as a list of bytes, for text that is hard to write. *)
Definition bytes (l : list nat) : string :=
  fold_right (λ b s, String (ascii_of_nat b) s) EmptyString l.

(** ** Sample descriptors and windows *)

Definition age : field_info :=
  {| name := "age"; type := "int"; optional := true; primary_key := false;
     default := None; description := None;
     min_value := Some "0"; max_value := Some "150"; decimal_places := None |}.

Definition price : field_info :=
  {| name := "price"; type := "Decimal"; optional := false;
     primary_key := false; default := None; description := None;
     min_value := None; max_value := Some "8"; decimal_places := Some "2" |}.

Definition status : field_info :=
  {| name := "status"; type := "Enum"; optional := false;
     primary_key := false; default := None; description := None;
     min_value := None; max_value := None; decimal_places := None |}.

Definition zero_bounded (ty : string) : field_info :=
  {| name := "n"; type := ty; optional := false; primary_key := false;
     default := None; description := None;
     min_value := Some "0"; max_value := Some "0"; decimal_places := None |}.

Definition empty_window : FieldGeneratorGUI :=
  {| field_name_var := ""; field_type_var := ""; optional_var := false;
     primary_key_var := false; default_value_var := ""; description_var := "";
     min_value_var := ""; max_value_var := ""; decimal_places_var := "";
     decimal_entry := disabled; fields := []; field_listbox := [];
     code_text := ""; messagebox := [] |}.

Definition age_listed : FieldGeneratorGUI :=
  {| field_name_var := ""; field_type_var := ""; optional_var := false;
     primary_key_var := false; default_value_var := ""; description_var := "";
     min_value_var := ""; max_value_var := ""; decimal_places_var := "";
     decimal_entry := disabled; fields := [age; status];
     field_listbox := ["age (int) [可选]"; "status (Enum)"];
     code_text := ""; messagebox := [] |}.

Definition age_form : FieldGeneratorGUI :=
  {| field_name_var := " age "; field_type_var := "整数 (int)";
     optional_var := true; primary_key_var := false;
     default_value_var := ""; description_var := "";
     min_value_var := "0"; max_value_var := "150"; decimal_places_var := "";
     decimal_entry := disabled; fields := []; field_listbox := [];
     code_text := ""; messagebox := [] |}.

(** A form whose type text is a type, not a label of the combo box. *)
Definition unlabelled_form : FieldGeneratorGUI :=
  {| field_name_var := "age"; field_type_var := "int";
     optional_var := false; primary_key_var := false;
     default_value_var := ""; description_var := "";
     min_value_var := ""; max_value_var := ""; decimal_places_var := "";
     decimal_entry := disabled; fields := []; field_listbox := [];
     code_text := ""; messagebox := [] |}.

(** A form with the Enum label picked and decimal places left over. *)
Definition enum_form : FieldGeneratorGUI :=
  {| field_name_var := "status"; field_type_var := "枚举 (Enum)";
     optional_var := false; primary_key_var := false;
     default_value_var := ""; description_var := "";
     min_value_var := ""; max_value_var := ""; decimal_places_var := "2";
     decimal_entry := normal; fields := [age]; field_listbox := ["age (int) [可选]"];
     code_text := ""; messagebox := [] |}.

(** A form whose name is [age] between two ideographic spaces (U+3000),
    and one whose name is such a space alone; the default is 123 in
    full-width digits. *)
Definition wide_space_form (name : string) : FieldGeneratorGUI :=
  {| field_name_var := name; field_type_var := "整数 (int)";
     optional_var := false; primary_key_var := false;
     default_value_var := "１２３"; description_var := "";
     min_value_var := ""; max_value_var := ""; decimal_places_var := "";
     decimal_entry := disabled; fields := []; field_listbox := [];
     code_text := ""; messagebox := [] |}.

(** * Properties *)

#[local] Set Warnings "-clear-no-such-hyp".

(** Let [simpl] compute an append whose left operand starts with a
    character. *)
#[local] Arguments String.append !s1 s2 : simpl nomatch.

(** ** The built-ins on sample inputs *)

Example float_accepts_numbers :
  forallb Py.float_accepts
    ["0"; "150"; "-1"; "+3.14"; ".5"; "1."; "1e5"; "1.e-5"; "1_000"; " 12 ";
     "inf"; "-Infinity"; "NaN"; "1e1_0"] = true.
Proof. reflexivity. Qed.

Example float_rejects_others :
  existsb Py.float_accepts
    [""; "  "; "."; "1e"; "e5"; "1 2"; "--1"; "0x10"; "1__0"; "_1"; "1_";
     "1_e5"; "infinit"; "abc"; "None"; "True"; "Uuid.uuid4"; "12px"] = false.
Proof. reflexivity. Qed.

Example strip_lower_contains :
  Py.strip "  first name  " = "first name" ∧
  Py.strip "   " = "" ∧
  Py.lower "NoNe" = "none" ∧
  Py.contains "Dict" "Dict[str, Any]" = true ∧
  Py.contains "List" "List[str]" = true ∧
  Py.contains "List" "Enum" = false ∧
  Py.sorted ["import uuid"; "from typing import Optional";
             "from decimal import Decimal"]
  = ["from decimal import Decimal"; "from typing import Optional"; "import uuid"].
Proof. repeat split; reflexivity. Qed.

(** The white space of [strip] in bytes is the white space of [isspace]
    in code points, for every code point below U+3100; no pattern of
    [space2] or [space3] encodes a code point above. *)
Example spaces_in_utf8 :
  for_all_from 0 (N.to_nat 12544)
    (λ cp, Bool.eqb (Py.all_space (Py.encode cp)) (Py.isspace cp)
           && match Py.decode (Py.encode cp) with
              | [x] => N.eqb x cp
              | _ => false
              end) = true.
Proof. vm_compute. reflexivity. Qed.

(** Full-width, Arabic-Indic and mathematical digits, and white space
    outside ASCII, as [float] and [strip] of CPython take them. *)
Example float_strip_unicode :
  forallb Py.float_accepts
    ["１２３"; "١٢٣"; "𝟏𝟐"; "1_０"; "+.５"; "1e１０";
     bytes [194; 160; 49; 50]; bytes [49; 227; 128; 128]] = true ∧
  existsb Py.float_accepts
    ["．5"; "٣٫٥"; "1 ０"; "²"; "①"; bytes [28; 49]; bytes [49; 31];
     bytes [127; 49]; bytes [227; 128; 128]] = false ∧
  Py.strip (bytes [227; 128; 128; 32; 97; 103; 101; 31; 194; 160]) = "age" ∧
  Py.strip (bytes [227; 128; 128]) = "" ∧
  Py.strip (bytes [226; 128; 139; 97; 226; 128; 139])
  = bytes [226; 128; 139; 97; 226; 128; 139].
Proof. vm_compute. repeat split. Qed.

(** A name of white space alone is refused, white space around a name
    is dropped, and a default in digits of another script is a number. *)
Example add_field_wide_space :
  add_field (wide_space_form "　")
  = returned (show (showerror "错误" "请输入字段名称") (wide_space_form "　")) ∧
  (∃ self', add_field (wide_space_form "　age　") = returned self' ∧
            fields self'
            = [ {| name := "age"; type := "int"; optional := false;
                   primary_key := false; default := Some "１２３";
                   description := None; min_value := None;
                   max_value := None; decimal_places := None |} ]) ∧
  default_param "１２３" = returned "default=１２３" ∧
  classify "１２３" = numeric_default.
Proof. vm_compute. split_and!; [done | by eexists | done..]. Qed.

(** ** Declarations *)

(** C2.  The descriptor age (Integer, optional, no default, bounds 0 and
    150, no primary key and no description) is declared as
    [age: Optional[int] = Field(default=None, ge=0, le=150)], whatever its
    decimal places hold: the type is wrapped in Optional, the missing
    default of an optional field gives default=None, and the tokens come in
    the order default, ge, le. *)
Theorem age_declaration (places : option string) :
  generate_field_code
    {| name := "age"; type := "int"; optional := true; primary_key := false;
       default := None; description := None;
       min_value := Some "0"; max_value := Some "150";
       decimal_places := places |}
  = returned "age: Optional[int] = Field(default=None, ge=0, le=150)".
Proof. reflexivity. Qed.

(** ** Generation on an empty list *)

(** C6, as the code has it.  With no field in the list [generate_code]
    raises nothing: it shows the warning box that asks for a field first
    and returns.  Nothing is generated: the output pane keeps its text, and
    the field list, the list box and the form are as they were. *)
Theorem generate_code_empty (self : FieldGeneratorGUI) :
  fields self = [] →
  ∃ self',
    generate_code self = returned self' ∧
    self' = show (showwarning "警告" "请先添加字段") self ∧
    code_text self' = code_text self ∧
    fields self' = fields self ∧
    field_listbox self' = field_listbox self ∧
    messagebox self' = messagebox self ++ [showwarning "警告" "请先添加字段"].
Proof.
  intros Hempty. eexists. split.
  - unfold generate_code. rewrite Hempty. reflexivity.
  - by split_and!.
Qed.

Lemma generate_code_empty_witness :
  ∃ self',
    generate_code empty_window = returned self' ∧
    self' = show (showwarning "警告" "请先添加字段") empty_window ∧
    code_text self' = code_text empty_window ∧
    fields self' = fields empty_window ∧
    field_listbox self' = field_listbox empty_window ∧
    messagebox self'
    = messagebox empty_window ++ [showwarning "警告" "请先添加字段"].
Proof. apply (generate_code_empty empty_window). reflexivity. Defined.

(** C6 as stated fails: on the empty list nothing is raised. *)
Lemma generate_code_empty_no_error :
  ¬ ∃ e : exn, generate_code empty_window = raised e.
Proof. intros [e E]. discriminate E. Qed.

(** ** Default values *)

Lemma length_append (s t : string) :
  String.length (s +:+ t) = String.length s + String.length t.
Proof. induction s as [|c s IH]; simpl; [reflexivity | now rewrite IH]. Qed.

Lemma quoted_neq (d : string) : d ≠ dq +:+ d +:+ dq.
Proof.
  intros H. apply (f_equal String.length) in H.
  rewrite !length_append in H. simpl in H. lia.
Qed.


Lemma float_cases (d : string) :
  (Py.float_accepts d = true ∧ float d = returned ()) ∨
  (Py.float_accepts d = false ∧ float d = raised ValueError).
Proof. unfold float. destruct (Py.float_accepts d); [left | right]; done. Qed.

(** The code takes the branch of the spec's rule. *)
Lemma default_param_outcome (d : string) :
  ∃ tok, default_param d = returned tok ∧ outcome d tok (classify d).
Proof.
  unfold default_param, classify, Py.in_list; simpl.
  destruct (String.eqb (Py.lower d) "none"); simpl; [by eexists|].
  destruct (String.eqb (Py.lower d) "null"); simpl; [by eexists|].
  destruct (String.eqb (Py.lower d) "true"); simpl; [eexists; split; [done | by left]|].
  destruct (String.eqb (Py.lower d) "false"); simpl; [eexists; split; [done | by right]|].
  destruct (Py.startswith d "datetime."); simpl; [by eexists|].
  destruct (Py.startswith d "uuid."); simpl; [by eexists|].
  destruct (float_cases d) as [[-> Hf] | [-> Hf]]; rewrite Hf; simpl; by eexists.
Qed.

(** Tokens of two different outcomes are different strings. *)
Lemma outcome_unique (d tok : string) (k1 k2 : default_kind) :
  outcome d tok k1 → outcome d tok k2 → k1 = k2.
Proof.
  assert (Hq : ∀ s, "default=" +:+ s = "default=" +:+ dq +:+ s +:+ dq → False).
  { intros s H. apply (f_equal String.length) in H.
    rewrite !length_append in H. simpl in H. lia. }
  destruct k1, k2; simpl; try reflexivity; intros H1 H2; exfalso;
    repeat match goal with
           | H : _ ∨ _ |- _ => destruct H
           | H : _ ∧ _ |- _ => destruct H
           end; subst;
    first
      [ match goal with H : _ = _ |- _ => exact (Hq d H) end
      | match goal with H : _ = _ |- _ => exact (Hq d (eq_sym H)) end
      | by (simpl in *; discriminate)
      | match goal with
        | H : _ = _, F : float _ = returned () |- _ =>
            simpl in H; injection H as H; subst; by vm_compute in F
        end ].
Qed.




(** ** The parameter list, block by block *)

Ltac run := unfold mbind, raises_bind, mret, raises_ret; simpl.

Lemma default_params_returns (f : field_info) :
  ∃ dps, default_params f = returned dps ∧
    match default f with
    | Some d => ∃ tok, dps = [tok] ∧ default_param d = returned tok
                       ∧ outcome d tok (classify d)
    | None => dps = if optional f then ["default=None"] else []
    end.
Proof.
  unfold default_params. destruct (default f) as [d|].
  - destruct (default_param_outcome d) as (tok & E & Hk).
    rewrite E. run. eauto 6.
  - run. eauto.
Qed.

Lemma build_field_params_split (f : field_info) :
  build_field_params f
  = (dps ← default_params f; mret (dps ++ constraint_params f)).
Proof.
  unfold build_field_params, default_params, constraint_params.
  destruct (default f) as [d|].
  - destruct (default_param_outcome d) as (tok & -> & _). run.
    destruct (primary_key f), (Py.truthy (min_value f)),
      (Py.truthy (max_value f)), (Py.truthy (decimal_places f)),
      (Py.truthy (description f)), (String.eqb (type f) "str"),
      (String.eqb (type f) "Decimal"); reflexivity.
  - run.
    destruct (optional f), (primary_key f), (Py.truthy (min_value f)),
      (Py.truthy (max_value f)), (Py.truthy (decimal_places f)),
      (Py.truthy (description f)), (String.eqb (type f) "str"),
      (String.eqb (type f) "Decimal"); reflexivity.
Qed.

(** [build_field_params] always returns: the default tokens, then the rest. *)
Lemma build_field_params_returns (f : field_info) :
  ∃ dps, default_params f = returned dps ∧
         build_field_params f = returned (dps ++ constraint_params f).
Proof.
  destruct (default_params_returns f) as (dps & E & _).
  exists dps. split; [done|]. rewrite build_field_params_split, E. by run.
Qed.

Lemma generate_field_code_returns (f : field_info) :
  ∃ ps, build_field_params f = returned ps ∧
    generate_field_code f =
      returned (name f +:+ ": "
                +:+ (if optional f then "Optional[" +:+ type f +:+ "]" else type f)
                +:+ " = "
                +:+ match ps with
                    | [] => "Field()"
                    | _ => "Field(" +:+ Py.join ", " ps +:+ ")"
                    end).
Proof.
  destruct (build_field_params_returns f) as (dps & _ & E).
  eexists. split; [exact E|]. unfold generate_field_code. rewrite E. by run.
Qed.

(** C3.  Classifying a raw default is total and deterministic: the branch
    taken by the code returns a token, the token witnesses the outcome the
    spec's rule names, and it witnesses no other of the five outcomes, in
    this run as in any other.  The numeric step cannot raise: when [float]
    fails the ValueError is caught and the default is the quoted string.
    The raw string true gives default=True, not a quoted string, on a
    Boolean field as on any other. *)
Theorem default_classification (d : string) :
  (∃ tok, default_param d = returned tok ∧
          outcome d tok (classify d) ∧
          ∀ k, outcome d tok k → k = classify d) ∧
  (∀ tok' k', default_param d = returned tok' → outcome d tok' k' →
              k' = classify d) ∧
  (classify d = string_default →
     float d = raised ValueError ∧
     default_param d = returned ("default=" +:+ dq +:+ d +:+ dq)) ∧
  default_param "true" = returned "default=True" ∧
  (∀ f, ∃ rest, build_field_params (with_default (Some "true") f)
                = returned ("default=True" :: rest)).
Proof.
  destruct (default_param_outcome d) as (tok & E & Hk).
  split; [|split; [|split; [|split]]].
  - exists tok. repeat split; [done..|].
    intros k Hk'. by eapply outcome_unique.
  - intros tok' k' E' Hk'. rewrite E in E'. injection E' as <-.
    by eapply outcome_unique.
  - intros Hc. split.
    + revert Hc. unfold classify, float.
      repeat match goal with |- context [if ?b then _ else _] =>
        destruct b; try discriminate end.
      reflexivity.
    + rewrite Hc in Hk. simpl in Hk. by rewrite E, Hk.
  - reflexivity.
  - intros f. rewrite build_field_params_split. eexists. reflexivity.
Qed.


(** ** Bounds *)

Lemma present_truthy (o : option string) (v : string) :
  present o v ↔ Py.truthy o = true ∧ str o = v.
Proof.
  unfold present. destruct o as [[|c s]|]; simpl; split; intros [H1 H2];
    try discriminate; simplify_eq; try done.
Qed.

Lemma strip_or_None_present (x v : string) :
  strip_or_None x = Some v → present (strip_or_None x) v.
Proof.
  unfold strip_or_None, present. destruct (Py.strip x); [discriminate|].
  intros [= <-]. done.
Qed.

(** Every optional entry that [add_field] stores is [None] or present. *)
Lemma field_of_form_present (self : FieldGeneratorGUI) (t v : string) :
  let f := field_of_form self t in
  (default f = Some v → present (default f) v) ∧
  (description f = Some v → present (description f) v) ∧
  (min_value f = Some v → present (min_value f) v) ∧
  (max_value f = Some v → present (max_value f) v) ∧
  (decimal_places f = Some v → present (decimal_places f) v).
Proof. simpl. split_and!; apply strip_or_None_present. Qed.

(** C8.  A present lower bound v gives the token min_length=v on a str
    field and ge=v on a field of any other type; a present upper bound
    gives max_length=v and le=v in the same way.  The text 0 is present as
    any other text is, so a zero bound is emitted. *)
Theorem bounds_emitted (f : field_info) (v : string) :
  (present (min_value f) v →
     ∃ ps, build_field_params f = returned ps ∧
           (type f = "str" → "min_length=" +:+ v ∈ ps) ∧
           (type f ≠ "str" → "ge=" +:+ v ∈ ps)) ∧
  (present (max_value f) v →
     ∃ ps, build_field_params f = returned ps ∧
           (type f = "str" → "max_length=" +:+ v ∈ ps) ∧
           (type f ≠ "str" → "le=" +:+ v ∈ ps)) ∧
  present (Some "0") "0".
Proof.
  destruct (build_field_params_returns f) as (dps & _ & E).
  split; [|split]; [| |by split].
  - intros [Ht Hv]%present_truthy. exists (dps ++ constraint_params f).
    split; [done|]. unfold constraint_params. rewrite Ht, Hv.
    split; intros Hty.
    + rewrite Hty. simpl. set_solver.
    + apply String.eqb_neq in Hty. rewrite Hty. set_solver.
  - intros [Ht Hv]%present_truthy. exists (dps ++ constraint_params f).
    split; [done|]. unfold constraint_params. rewrite Ht, Hv.
    split; intros Hty.
    + rewrite Hty. simpl. set_solver.
    + apply String.eqb_neq in Hty. rewrite Hty. set_solver.
Qed.

Lemma bounds_emitted_witness :
  (∃ ps, build_field_params (zero_bounded "str") = returned ps ∧
         "min_length=0" ∈ ps ∧ "max_length=0" ∈ ps) ∧
  (∃ ps, build_field_params (zero_bounded "int") = returned ps ∧
         "ge=0" ∈ ps ∧ "le=0" ∈ ps).
Proof.
  split.
  - destruct (bounds_emitted (zero_bounded "str") "0") as (Hlo & Hhi & Hp).
    destruct (Hlo Hp) as (ps & E & Hs & _).
    destruct (Hhi Hp) as (ps' & E' & Hs' & _).
    rewrite E in E'. injection E' as <-.
    exists ps. repeat split; [exact E | by apply Hs | by apply Hs'].
  - destruct (bounds_emitted (zero_bounded "int") "0") as (Hlo & Hhi & Hp).
    destruct (Hlo Hp) as (ps & E & _ & Hn).
    destruct (Hhi Hp) as (ps' & E' & _ & Hn').
    rewrite E in E'. injection E' as <-.
    exists ps. repeat split; [exact E | by apply Hn | by apply Hn'].
Defined.

(** A token starting with decimal_places= can only come from line 382. *)
Lemma decimal_places_token (f : field_info) (ps : list string) (p : string) :
  build_field_params f = returned ps →
  "decimal_places=" +:+ p ∈ ps →
  type f = "Decimal" ∧ present (decimal_places f) p.
Proof.
  intros E Hin.
  destruct (build_field_params_returns f) as (dps & Ed & E').
  rewrite E in E'. injection E' as ->.
  apply elem_of_app in Hin as [Hin | Hin].
  - exfalso. destruct (default_params_returns f) as (dps' & Ed' & Hd).
    rewrite Ed in Ed'. injection Ed' as <-.
    destruct (default f) as [d|].
    + destruct Hd as (tok & -> & _ & Hk).
      apply list_elem_of_singleton in Hin. subst tok.
      destruct (classify d); simpl in Hk;
        repeat match goal with H : _ ∨ _ |- _ => destruct H
                          | H : _ ∧ _ |- _ => destruct H end;
        discriminate.
    + subst dps. destruct (optional f);
        [apply list_elem_of_singleton in Hin; discriminate | by inversion Hin].
  - unfold constraint_params in Hin.
    repeat match type of Hin with
           | _ ∈ _ ++ _ => apply elem_of_app in Hin as [Hin | Hin]
           end;
    repeat match type of Hin with
           | context [if ?b then _ else _] => destruct b eqn:?
           end;
    repeat match type of Hin with
           | _ ∈ _ ++ _ => apply elem_of_app in Hin as [Hin | Hin]
           end;
    try (by inversion Hin);
    apply list_elem_of_singleton in Hin; simpl in Hin; try discriminate.
    all: injection Hin as Hp; split;
      [by apply String.eqb_eq | apply present_truthy; by split].
Qed.

(** C4.  On a Decimal field with a present upper bound v the parameters
    hold both le=v and max_digits=v, and they hold decimal_places=p exactly
    when p is the present entry for the decimal places. *)
Theorem decimal_tokens (f : field_info) (v : string) :
  type f = "Decimal" →
  present (max_value f) v →
  ∃ ps, build_field_params f = returned ps ∧
        "le=" +:+ v ∈ ps ∧
        "max_digits=" +:+ v ∈ ps ∧
        ∀ p, "decimal_places=" +:+ p ∈ ps ↔ present (decimal_places f) p.
Proof.
  intros Hty [Ht Hv]%present_truthy.
  destruct (build_field_params_returns f) as (dps & _ & E).
  exists (dps ++ constraint_params f). split; [done|].
  split; [|split].
  - unfold constraint_params. rewrite Hty, Ht, Hv. simpl. set_solver.
  - unfold constraint_params. rewrite Hty, Ht, Hv. simpl. set_solver.
  - intros p. split.
    + intros Hin. by eapply decimal_places_token.
    + intros [Htp Hp]%present_truthy.
      unfold constraint_params. rewrite Hty, Htp, Hp. simpl. set_solver.
Qed.

Lemma decimal_tokens_witness :
  ∃ ps, build_field_params price = returned ps ∧
        "le=8" ∈ ps ∧ "max_digits=8" ∈ ps ∧ "decimal_places=2" ∈ ps.
Proof.
  destruct (decimal_tokens price "8") as (ps & E & Hle & Hmd & Hdp).
  - reflexivity.
  - by split.
  - exists ps. repeat split; [done..|]. apply (Hdp "2"). by split.
Defined.

(** ** Imports *)

Lemma add_import_union (X : gset string) (f : field_info) :
  add_import X f = X ∪ add_import ∅ f.
Proof.
  unfold add_import.
  repeat match goal with |- context [if ?b then _ else _] => destruct b end;
    set_solver.
Qed.

Lemma fold_add_import (fs : list field_info) (X : gset string) :
  fold_left add_import fs X = X ∪ fold_left add_import fs ∅.
Proof.
  revert X. induction fs as [|f fs IH]; intros X; simpl.
  - set_solver.
  - rewrite (IH (add_import X f)), (IH (add_import ∅ f)), (add_import_union X f).
    set_solver.
Qed.

Lemma collect_imports_base (fs : list field_info) :
  collect_imports fs
  = {[ typing_optional ]} ∪ {[ sqlmodel_field ]} ∪ fold_left add_import fs ∅.
Proof.
  unfold collect_imports. rewrite fold_add_import. set_solver.
Qed.

Lemma collect_imports_app (fs fs' : list field_info) :
  collect_imports (fs ++ fs') = collect_imports fs ∪ collect_imports fs'.
Proof.
  rewrite !collect_imports_base, fold_left_app, fold_add_import. set_solver.
Qed.

(** [sorted] of a set lists its members once each, in ascending order. *)
Lemma sorted_elements (X : gset string) :
  (∀ x, x ∈ Py.sorted (elements X) ↔ x ∈ X) ∧
  NoDup (Py.sorted (elements X)) ∧
  Sorted String.le (Py.sorted (elements X)).
Proof.
  unfold Py.sorted. split; [|split].
  - intros x. by rewrite merge_sort_Permutation, elem_of_elements.
  - rewrite merge_sort_Permutation. apply NoDup_elements.
  - apply (Sorted_merge_sort _).
Qed.

Lemma append_field_lines_returns (fs : list field_info) (code_lines : list string) :
  ∃ decls,
    Forall2 (λ f d, generate_field_code f = returned d) fs decls ∧
    append_field_lines fs code_lines
    = returned (code_lines ++ map (λ d, "    " +:+ d) decls).
Proof.
  revert code_lines. induction fs as [|f fs IH]; intros code_lines; simpl.
  - exists []. split; [constructor | by rewrite app_nil_r].
  - destruct (generate_field_code_returns f) as (ps & _ & E).
    rewrite E. run.
    match goal with |- context [append_field_lines fs ?acc] =>
      destruct (IH acc) as (decls & HF & ->) end.
    eexists (_ :: decls). split; [by constructor|].
    simpl. by rewrite <- app_assoc.
Qed.

Lemma build_code_lines_returns (fs : list field_info) :
  ∃ decls,
    Forall2 (λ f d, generate_field_code f = returned d) fs decls ∧
    build_code_lines fs
    = returned (Py.sorted (elements (collect_imports fs)) ++ class_header
                ++ map (λ d, "    " +:+ d) decls).
Proof.
  unfold build_code_lines.
  destruct (append_field_lines_returns fs
              (((((([] ++ Py.sorted (elements (collect_imports fs))) ++ [""])
                   ++ ["class GeneratedModel(SQLModel, table=True):"])
                  ++ ["    " +:+ dq +:+ dq +:+ dq +:+ "自动生成的模型类"
                      +:+ dq +:+ dq +:+ dq]) ++ [""])))
    as (decls & HF & E).
  exists decls. split; [done|]. simpl in *. rewrite E.
  by rewrite <- !app_assoc.
Qed.

(** C5.  The import lines of any descriptor list hold the two base
    imports, hold no line twice, and ascend in the order of their
    characters; they are the members of a set that is a union over the
    descriptors, so a list added to another adds its set and a repeated
    descriptor adds nothing; [generate_code] emits them first.  Two
    datetime descriptors give the datetime import once, before the two
    base imports. *)
Theorem imports_set_union (fs fs' : list field_info) :
  typing_optional ∈ Py.sorted (elements (collect_imports fs)) ∧
  sqlmodel_field ∈ Py.sorted (elements (collect_imports fs)) ∧
  NoDup (Py.sorted (elements (collect_imports fs))) ∧
  Sorted String.le (Py.sorted (elements (collect_imports fs))) ∧
  (∀ x, x ∈ Py.sorted (elements (collect_imports fs)) ↔ x ∈ collect_imports fs) ∧
  collect_imports (fs ++ fs') = collect_imports fs ∪ collect_imports fs' ∧
  collect_imports (fs ++ fs) = collect_imports fs ∧
  (∃ rest, build_code_lines fs
           = returned (Py.sorted (elements (collect_imports fs)) ++ rest)) ∧
  (∀ f1 f2, type f1 = "datetime" → type f2 = "datetime" →
     Py.sorted (elements (collect_imports [f1; f2]))
     = [datetime_support; sqlmodel_field; typing_optional]).
Proof.
  destruct (sorted_elements (collect_imports fs)) as (Hin & Hnd & Hs).
  repeat split; try done.
  - apply Hin. rewrite collect_imports_base. set_solver.
  - apply Hin. rewrite collect_imports_base. set_solver.
  - by apply Hin.
  - by apply Hin.
  - apply collect_imports_app.
  - rewrite collect_imports_app. set_solver.
  - destruct (build_code_lines_returns fs) as (decls & _ & E). eauto.
  - intros f1 f2 H1 H2. unfold collect_imports, add_import. simpl.
    rewrite H1, H2. by vm_compute.
Qed.

Lemma fold_add_import_enum (fs : list field_info) (X : gset string) :
  Forall (λ f, type f = "Enum") fs → fold_left add_import fs X = X.
Proof.
  intros Hall. revert X.
  induction Hall as [|f fs Hf _ IH]; intros X; simpl; [done|].
  rewrite IH. unfold add_import. by rewrite Hf.
Qed.

(** C9.  An Enum descriptor adds no import: a list of Enum descriptors
    gives the two base imports and nothing else, while each of its
    declarations names the type Enum. *)
Theorem enum_needs_no_import (fs : list field_info) :
  Forall (λ f, type f = "Enum") fs →
  Py.sorted (elements (collect_imports fs)) = [sqlmodel_field; typing_optional] ∧
  Forall (λ f, ∃ rest,
            generate_field_code f
            = returned (name f +:+ ": "
                        +:+ (if optional f then "Optional[Enum]" else "Enum")
                        +:+ " = Field(" +:+ rest)) fs.
Proof.
  intros Hall. split.
  - unfold collect_imports. rewrite fold_add_import_enum by done.
    by vm_compute.
  - apply Forall_impl with (1 := Hall). intros f Hf.
    destruct (generate_field_code_returns f) as (ps & _ & E).
    rewrite E, Hf. destruct ps, (optional f); eexists; reflexivity.
Qed.

Lemma enum_needs_no_import_witness :
  Py.sorted (elements (collect_imports [status; status]))
  = [sqlmodel_field; typing_optional].
Proof.
  apply (enum_needs_no_import [status; status]).
  repeat constructor.
Defined.

(** ** Generation *)




(** ** Adding a field *)

Lemma refuses_messagebox (before after : FieldGeneratorGUI) (e : ValidationError) :
  refuses before after e →
  ∃ d, messagebox after = messagebox before ++ [d] ∧ reported d = Some e.
Proof. intros (d & -> & Hd). by exists d. Qed.

(** C7, as the code has it.  With the type empty or picked from the combo
    box, [add_field] refuses with missing-required-field, an error box shown
    and nothing else changed, exactly when the name is blank or no type is
    picked.  In every other case it succeeds without looking at the other
    entries: the descriptor holds the stripped name, the type text of the
    label and the stripped entries ([None] for a blank one); it is appended
    to the field list, a line is added to the list box, the form is cleared
    and a success box is shown. *)
Theorem add_field_validation (self : FieldGeneratorGUI) :
  (field_type_var self = "" ∨
   ∃ t, getitem field_types (field_type_var self) = returned t) →
  ((Py.strip (field_name_var self) = "" ∨ field_type_var self = "") ↔
   ∃ self', add_field self = returned self' ∧
            refuses self self' missing_required_field) ∧
  (Py.strip (field_name_var self) = "" →
   add_field self = returned (show (showerror "错误" "请输入字段名称") self)) ∧
  (Py.strip (field_name_var self) ≠ "" → field_type_var self = "" →
   add_field self = returned (show (showerror "错误" "请选择字段类型") self)) ∧
  (Py.strip (field_name_var self) ≠ "" → field_type_var self ≠ "" →
   ∃ t display_text,
     getitem field_types (field_type_var self) = returned t ∧
     add_field self
     = returned
         (show (showinfo "成功" ("字段 '" +:+ Py.strip (field_name_var self)
                                 +:+ "' 已添加"))
            (clear_inputs (append_field (field_of_form self t) display_text self)))).
Proof.
  intros Hbox. unfold add_field.
  destruct (Py.strip (field_name_var self)) as [|c n] eqn:En.
  { split_and!; [|done..]. split; [|by left].
    intros _. eexists. split; [done|]. eexists. by split. }
  destruct (field_type_var self) as [|c' l] eqn:El.
  { split_and!; [|done..]. split; [|by right].
    intros _. eexists. split; [done|]. eexists. by split. }
  destruct Hbox as [|[t Ht]]; [done|]. rewrite Ht. run.
  split_and!; [|done|done|].
  - split; [by intros [|]|]. intros (self' & E & Hr). exfalso.
    injection E as <-.
    apply refuses_messagebox in Hr as (d & Hm & Hd). simpl in Hm.
    apply app_inv_head in Hm. injection Hm as <-. discriminate.
  - intros _ _. exists t. eexists. split; [done|].
    unfold field_of_form. rewrite En. reflexivity.
Qed.

Lemma add_field_validation_witness :
  ∃ t display_text,
    getitem field_types "整数 (int)" = returned t ∧
    add_field age_form
    = returned
        (show (showinfo "成功" ("字段 '" +:+ "age" +:+ "' 已添加"))
           (clear_inputs (append_field (field_of_form age_form t) display_text age_form))).
Proof.
  apply (add_field_validation age_form).
  - right. by exists "int".
  - discriminate.
  - discriminate.
Defined.

(** C7 as stated fails: a successful [add_field] changes the window. *)
Lemma add_field_side_effects :
  ¬ (∀ self self',
       Py.strip (field_name_var self) ≠ "" → field_type_var self ≠ "" →
       add_field self = returned self' →
       fields self' = fields self ∧
       field_listbox self' = field_listbox self ∧
       field_name_var self' = field_name_var self ∧
       messagebox self' = messagebox self).
Proof.
  intros H.
  destruct (H age_form _ ltac:(discriminate) ltac:(discriminate) eq_refl)
    as (Hf & _).
  discriminate Hf.
Qed.

(** * Further properties *)

(** ** Tokens of a declaration *)

(** X1.  The entry for the decimal places is read on a Decimal field only:
    on any other type the declaration is the same whatever it holds. *)
Theorem decimal_places_ignored (f : field_info) (p : option string) :
  type f ≠ "Decimal" →
  generate_field_code (with_places p f) = generate_field_code f.
Proof.
  intros Hty%String.eqb_neq.
  unfold generate_field_code, build_field_params. simpl. by rewrite Hty.
Qed.

Lemma decimal_places_ignored_witness :
  generate_field_code (with_places (Some "2") age) = generate_field_code age.
Proof. apply (decimal_places_ignored age (Some "2")). discriminate. Defined.

(** The default tokens by their keyword. *)
Lemma default_params_keys (f : field_info) :
  ∃ dps, default_params f = returned dps ∧
    (dps = [] ∧ default f = None ∧ optional f = false ∨
     ∃ tok, dps = [tok] ∧
            (key_of tok = "default" ∨ key_of tok = "default_factory") ∧
            (default f ≠ None ∨ optional f = true)).
Proof.
  destruct (default_params_returns f) as (dps & E & Hd).
  exists dps. split; [done|].
  destruct (default f) as [d|].
  - right. destruct Hd as (tok & -> & _ & Hk). exists tok.
    split; [done|]. split; [|by left].
    destruct (classify d); simpl in Hk;
      repeat match goal with H : _ ∨ _ |- _ => destruct H
                        | H : _ ∧ _ |- _ => destruct H end;
      subst; simpl; auto.
  - destruct (optional f); subst.
    + right. eexists. split; [done|]. split; [by left | by right].
    + by left.
Qed.

(** X2.  No two entries of the parameter list have the same keyword, the
    keyword of an entry being its text before the first equals sign. *)
Theorem keywords_distinct (f : field_info) :
  ∃ ps, build_field_params f = returned ps ∧ NoDup (map key_of ps).
Proof.
  destruct (build_field_params_returns f) as (dps & Ed & E).
  exists (dps ++ constraint_params f). split; [done|].
  destruct (default_params_keys f) as (dps' & Ed' & Hd).
  rewrite Ed in Ed'. injection Ed' as <-.
  unfold constraint_params.
  destruct Hd as [(-> & _) | (tok & -> & Hk & _)];
    rewrite ?map_app; simpl;
    [|destruct Hk as [-> | ->]];
    destruct (primary_key f), (Py.truthy (min_value f)),
      (Py.truthy (max_value f)), (Py.truthy (decimal_places f)),
      (Py.truthy (description f)), (String.eqb (type f) "str"),
      (String.eqb (type f) "Decimal"); simpl;
    refine (bool_decide_unpack _ _); by vm_compute.
Qed.

(** X3.  A field that is optional or has a default starts its parameters
    with a default or default_factory token; a required field without a
    default has no such token at all. *)
Theorem default_token_first (f : field_info) :
  ∃ ps, build_field_params f = returned ps ∧
    (default f ≠ None ∨ optional f = true →
     ∃ tok rest, ps = tok :: rest ∧
       (key_of tok = "default" ∨ key_of tok = "default_factory")) ∧
    (default f = None → optional f = false →
     ∀ tok, tok ∈ ps →
       key_of tok ≠ "default" ∧ key_of tok ≠ "default_factory").
Proof.
  destruct (build_field_params_returns f) as (dps & Ed & E).
  exists (dps ++ constraint_params f). split; [done|].
  destruct (default_params_keys f) as (dps' & Ed' & Hd).
  rewrite Ed in Ed'. injection Ed' as <-.
  split.
  - intros Hor. destruct Hd as [(_ & Hn & Ho) | (tok & -> & Hk & _)].
    + destruct Hor; congruence.
    + by exists tok, (constraint_params f).
  - intros Hn Ho. destruct Hd as [(-> & _) | (tok & _ & _ & [Hd | Hd])];
      [|congruence..].
    simpl. unfold constraint_params. intros tok Hin.
    repeat match type of Hin with
           | _ ∈ _ ++ _ => apply elem_of_app in Hin as [Hin | Hin]
           end;
    repeat match type of Hin with
           | context [if ?b then _ else _] => destruct b eqn:?
           end;
    repeat match type of Hin with
           | _ ∈ _ ++ _ => apply elem_of_app in Hin as [Hin | Hin]
           end;
    try (by inversion Hin);
    apply list_elem_of_singleton in Hin; subst tok; simpl; by split.
Qed.

(** X4.  The parameters are empty exactly for a bare descriptor (required,
    no default, no primary key, no bound, no description, and no decimal
    places on a Decimal field), and then the declaration ends in Field(). *)
Theorem bare_field (f : field_info) :
  (build_field_params f = returned [] ↔ bare f) ∧
  (bare f →
   generate_field_code f = returned (name f +:+ ": " +:+ type f +:+ " = Field()")).
Proof.
  assert (Hiff : build_field_params f = returned [] ↔ bare f).
  { destruct (build_field_params_returns f) as (dps & Ed & E).
    destruct (default_params_keys f) as (dps' & Ed' & Hd).
    rewrite Ed in Ed'. injection Ed' as <-.
    rewrite E. unfold bare, constraint_params.
    destruct Hd as [(-> & -> & ->) | (tok & -> & _ & Hor)].
    - destruct (primary_key f), (Py.truthy (min_value f)),
        (Py.truthy (max_value f)), (Py.truthy (decimal_places f)),
        (Py.truthy (description f)), (String.eqb_spec (type f) "Decimal");
        simpl; split; try discriminate; try (intros; by split_and!);
        intros (_ & _ & ? & ? & ? & ? & ?); try discriminate;
        try reflexivity;
        match goal with H : _ → true = false |- _ =>
          discriminate (H ltac:(assumption)) end.
    - split; [discriminate|]. intros (Hn & Ho & _).
      destruct Hor; congruence. }
  split; [exact Hiff|].
  intros Hb. pose proof Hb as (_ & Ho & _). apply Hiff in Hb.
  unfold generate_field_code. rewrite Hb, Ho. reflexivity.
Qed.

Lemma bare_field_witness :
  generate_field_code
    {| name := "title"; type := "str"; optional := false; primary_key := false;
       default := None; description := None; min_value := None;
       max_value := None; decimal_places := Some "2" |}
  = returned "title: str = Field()".
Proof.
  apply (bare_field
           {| name := "title"; type := "str"; optional := false;
              primary_key := false; default := None; description := None;
              min_value := None; max_value := None;
              decimal_places := Some "2" |}).
  by split_and!.
Defined.

(** ** The import set, exactly *)

Lemma in_list_elem (x : string) (l : list string) :
  Py.in_list x l = true ↔ x ∈ l.
Proof.
  unfold Py.in_list. rewrite existsb_exists. split.
  - intros (y & Hy%list_elem_of_In & ->%String.eqb_eq). done.
  - intros Hx. exists x. split; [by apply list_elem_of_In | apply String.eqb_refl].
Qed.

Lemma elem_of_fold_add_import (x : string) (fs : list field_info) :
  x ∈ fold_left add_import fs ∅ ↔ ∃ f, f ∈ fs ∧ x ∈ add_import ∅ f.
Proof.
  induction fs as [|g fs IH] using rev_ind.
  - simpl. split; [set_solver | intros (f & Hf & _); by inversion Hf].
  - rewrite fold_left_app. simpl. rewrite add_import_union, elem_of_union, IH.
    split.
    + intros [(f & Hf & Hx) | Hx]; [exists f | exists g]; set_solver.
    + intros (f & [Hf | ->%list_elem_of_singleton]%elem_of_app & Hx); eauto.
Qed.

(** What one descriptor asks for. *)
Lemma add_import_elem (x : string) (f : field_info) :
  x ∈ add_import ∅ f ↔
  x = "from decimal import Decimal" ∧ type f = "Decimal" ∨
  x = datetime_support ∧ type f ∈ ["datetime"; "date"; "time"] ∨
  x = "import uuid" ∧ type f = "uuid.UUID" ∨
  x = "from typing import Dict, List, Any" ∧
    (Py.contains "Dict" (type f) = true ∨ Py.contains "List" (type f) = true).
Proof.
  unfold add_import.
  destruct (String.eqb_spec (type f) "Decimal") as [E | E].
  { rewrite E. set_unfold. split; [intros [[]| ->]; auto|].
    intros [[-> _] | [[-> H] | [[-> H] | [-> [H | H]]]]]; auto;
      solve [set_solver | discriminate]. }
  destruct (Py.in_list (type f) ["datetime"; "date"; "time"]) eqn:El.
  { apply in_list_elem in El. set_unfold. split; [intros [[]| ->]; auto|].
    intros [[-> H] | [[-> H] | [[-> H] | [-> [H | H]]]]]; auto;
      try congruence;
      destruct El as [El | [El | [El | []]]]; rewrite El in H; discriminate. }
  assert (Hnl : type f ∉ ["datetime"; "date"; "time"]).
  { intros H%in_list_elem. congruence. }
  destruct (String.eqb_spec (type f) "uuid.UUID") as [Eu | Eu].
  { rewrite Eu. set_unfold. split; [intros [[]| ->]; auto|].
    intros [[-> H] | [[-> H] | [[-> H] | [-> [H | H]]]]]; auto;
      solve [set_solver | discriminate]. }
  destruct (Py.contains "Dict" (type f) || Py.contains "List" (type f)) eqn:Ec.
  { apply orb_true_iff in Ec. set_unfold. split; [intros [[]| ->]; auto|].
    intros [[-> H] | [[-> H] | [[-> H] | [-> H]]]]; auto; set_solver. }
  apply orb_false_iff in Ec as [Ed Ei]. set_unfold. split; [done|].
  intros [[-> H] | [[-> H] | [[-> H] | [-> [H | H]]]]]; auto; congruence.
Qed.

(** X5.  The import lines are the two base imports and, for each of the
    four other lines, that line exactly when a descriptor asks for it:
    Decimal by the type Decimal, the datetime line by datetime, date or
    time, uuid by uuid.UUID, the typing containers by a type text that
    holds Dict or List.  Nothing else decides an import: not a default,
    not a bound, not the name. *)
Theorem imports_exact (fs : list field_info) (x : string) :
  x ∈ Py.sorted (elements (collect_imports fs)) ↔
  x = typing_optional ∨ x = sqlmodel_field ∨
  ∃ f, f ∈ fs ∧
    (x = "from decimal import Decimal" ∧ type f = "Decimal" ∨
     x = datetime_support ∧ type f ∈ ["datetime"; "date"; "time"] ∨
     x = "import uuid" ∧ type f = "uuid.UUID" ∨
     x = "from typing import Dict, List, Any" ∧
       (Py.contains "Dict" (type f) = true ∨ Py.contains "List" (type f) = true)).
Proof.
  destruct (sorted_elements (collect_imports fs)) as (Hin & _).
  rewrite Hin, collect_imports_base, !elem_of_union, !elem_of_singleton,
    elem_of_fold_add_import.
  setoid_rewrite add_import_elem. tauto.
Qed.

(** X6.  The import lines depend on the set of types in the list alone:
    two lists with the same types, in any order and number, get the same
    import lines. *)
Theorem imports_by_types (fs fs' : list field_info) :
  (∀ t, t ∈ map type fs ↔ t ∈ map type fs') →
  Py.sorted (elements (collect_imports fs))
  = Py.sorted (elements (collect_imports fs')).
Proof.
  intros Hty. f_equal. f_equal. apply set_eq. intros x.
  rewrite !collect_imports_base, !elem_of_union, !elem_of_fold_add_import.
  assert (Hside : ∀ l l' : list field_info,
            (∀ t, t ∈ map type l → t ∈ map type l') →
            (∃ f, f ∈ l ∧ x ∈ add_import ∅ f) →
            ∃ f, f ∈ l' ∧ x ∈ add_import ∅ f).
  { intros l l' Hsub (f & Hf & Hx).
    assert (Ht : type f ∈ map type l') by (apply Hsub, list_elem_of_fmap; eauto).
    apply list_elem_of_fmap in Ht as (g & Hg & Hgl).
    exists g. split; [done|]. unfold add_import in *. by rewrite <- Hg. }
  split; (intros [? | ?]; [by left | right]); eapply Hside; try eassumption;
    intros t; apply Hty.
Qed.

Lemma imports_by_types_witness :
  Py.sorted (elements (collect_imports [age; price; status]))
  = Py.sorted (elements (collect_imports [price; status; age; age; price])).
Proof.
  apply (imports_by_types [age; price; status] [price; status; age; age; price]).
  intros t. simpl. set_solver.
Defined.

(** ** [strip] *)

(** Induction over a string by steps of one, two or three bytes. *)
Lemma string_ind3 (P : string → Prop) :
  P "" →
  (∀ c, P (String c "")) →
  (∀ c d, P (String d "") → P (String c (String d ""))) →
  (∀ c d e r, P (String d (String e r)) → P (String e r) → P r →
              P (String c (String d (String e r)))) →
  ∀ s, P s.
Proof.
  intros H0 H1 H2 H3 s.
  assert (H : ∀ n s, String.length s ≤ n → P s).
  { clear s. induction n as [|n IH]; intros [|c [|d [|e r]]] Hl; simpl in Hl;
      try lia; try done.
    - apply H2, IH. simpl. lia.
    - apply H3; apply IH; simpl; lia. }
  by apply (H (String.length s)).
Qed.

Lemma lstrip_ws_head (s : string) : ws_head (Py.lstrip s) = false.
Proof.
  induction s as [|c|c d IH|c d e r IH1 IH2 IH3] using string_ind3.
  - done.
  - simpl. destruct (Py.space1 c) eqn:E; simpl; by rewrite ?E.
  - simpl in *. destruct (Py.space1 c) eqn:E1; [exact IH|].
    destruct (Py.space2 c d) eqn:E2; [done|]. simpl. by rewrite E1, E2.
  - simpl in *. destruct (Py.space1 c) eqn:E1; [exact IH1|].
    destruct (Py.space2 c d) eqn:E2; [exact IH2|].
    destruct (Py.space3 c d e) eqn:E3; [exact IH3|].
    simpl. by rewrite E1, E2, E3.
Qed.

Lemma lstrip_id (s : string) : ws_head s = false → Py.lstrip s = s.
Proof.
  destruct s as [|c [|d [|e r]]]; simpl; [done|..].
  - rewrite orb_false_r. by intros ->.
  - intros [-> [-> _]%orb_false_iff]%orb_false_iff. done.
  - intros [-> [-> ->]%orb_false_iff]%orb_false_iff. done.
Qed.

Lemma all_space_app (a b : string) :
  Py.all_space a = true → Py.all_space (a +:+ b) = Py.all_space b.
Proof.
  induction a as [|c|c d IH|c d e r IH1 IH2 IH3] using string_ind3.
  - done.
  - simpl. destruct (Py.space1 c); [done | discriminate].
  - simpl in *. destruct (Py.space1 c); [exact IH|].
    destruct (Py.space2 c d); [done | discriminate].
  - simpl in *. destruct (Py.space1 c); [exact IH1|].
    destruct (Py.space2 c d); [exact IH2|].
    destruct (Py.space3 c d e); [exact IH3 | discriminate].
Qed.

Lemma ws_head_app (t w : string) :
  ws_head t = true → ws_head (t +:+ w) = true.
Proof.
  destruct t as [|c [|d [|e r]]]; simpl; [done|..].
  - rewrite orb_false_r. by intros ->.
  - intros [-> | [-> | ?]%orb_true_iff]%orb_true_iff; [done | | done].
    by rewrite orb_true_r.
  - done.
Qed.

(** What [rstrip] cuts is white space. *)
Lemma rstrip_split (s : string) :
  ∃ w, s = Py.rstrip s +:+ w ∧ Py.all_space w = true.
Proof.
  induction s as [|c r (w & IH & Hw)].
  - by exists "".
  - change (Py.rstrip (String c r))
      with (if Py.all_space (String c r) then "" else String c (Py.rstrip r)).
    destruct (Py.all_space (String c r)) eqn:E.
    + by exists (String c r).
    + exists w. split; [|done]. simpl. by rewrite <- IH.
Qed.

Lemma rstrip_idem (s : string) : Py.rstrip (Py.rstrip s) = Py.rstrip s.
Proof.
  induction s as [|c r IH]; [done|].
  change (Py.rstrip (String c r))
    with (if Py.all_space (String c r) then "" else String c (Py.rstrip r)).
  destruct (Py.all_space (String c r)) eqn:E; [done|].
  change (Py.rstrip (String c (Py.rstrip r)))
    with (if Py.all_space (String c (Py.rstrip r)) then ""
          else String c (Py.rstrip (Py.rstrip r))).
  destruct (Py.all_space (String c (Py.rstrip r))) eqn:E'; [|by rewrite IH].
  destruct (rstrip_split r) as (w & Hr & Hw).
  apply (all_space_app _ w) in E'.
  change (String c (Py.rstrip r) +:+ w) with (String c (Py.rstrip r +:+ w)) in E'.
  rewrite <- Hr in E'. congruence.
Qed.

Lemma rstrip_ws_head (s : string) :
  ws_head s = false → ws_head (Py.rstrip s) = false.
Proof.
  intros Hs. destruct (rstrip_split s) as (w & Hr & _).
  destruct (ws_head (Py.rstrip s)) eqn:E; [|done].
  apply (ws_head_app _ w) in E. rewrite <- Hr in E. congruence.
Qed.

(** Stripping what is stripped changes nothing. *)
Lemma strip_idem (s : string) : Py.strip (Py.strip s) = Py.strip s.
Proof.
  unfold Py.strip.
  rewrite (lstrip_id (Py.rstrip (Py.lstrip s))).
  - apply rstrip_idem.
  - apply rstrip_ws_head, lstrip_ws_head.
Qed.

(** What is stripped has no white space at either end. *)
Lemma strip_ends (s : string) :
  ws_head (Py.strip s) = false ∧
  ∀ t w, Py.strip s = t +:+ w → Py.all_space w = true → w = "".
Proof.
  split; [apply rstrip_ws_head, lstrip_ws_head|].
  intros t w Hs Hw. pose proof (strip_idem s) as Hi.
  unfold Py.strip at 1 in Hi. rewrite (lstrip_id (Py.strip s)) in Hi
    by (apply rstrip_ws_head, lstrip_ws_head).
  rewrite Hs in Hi. clear Hs.
  induction t as [|c t IH].
  - simpl in Hi. destruct w as [|c r]; [done|].
    change (Py.rstrip (String c r))
      with (if Py.all_space (String c r) then "" else String c (Py.rstrip r))
      in Hi.
    rewrite Hw in Hi. discriminate.
  - change (Py.rstrip (String c t +:+ w))
      with (if Py.all_space (String c (t +:+ w)) then ""
            else String c (Py.rstrip (t +:+ w))) in Hi.
    destruct (Py.all_space (String c (t +:+ w))); [discriminate|].
    simpl in Hi. injection Hi as Hi. by apply IH.
Qed.

Lemma text_byte_spaces (c : ascii) :
  text_byte c = true →
  Py.space1 c = false ∧
  (∀ a, Py.space2 a c = false) ∧ (∀ d, Py.space2 c d = false) ∧
  (∀ a d, Py.space3 a d c = false) ∧ (∀ a e, Py.space3 a c e = false) ∧
  (∀ d e, Py.space3 c d e = false).
Proof.
  unfold text_byte, Py.space2, Py.space3, Py.byte, Py.in_range.
  intros [Hc Hs%negb_true_iff]%andb_true_iff. apply N.ltb_lt in Hc.
  split; [done|].
  assert (Hn : ∀ n, (128 ≤ n)%N → (Py.code c =? n)%N = false)
    by (intros n Hn; apply N.eqb_neq; lia).
  assert (Hl : ∀ n, (128 ≤ n)%N → (n <=? Py.code c)%N = false)
    by (intros n Hn'; apply N.leb_gt; lia).
  split_and!; intros; rewrite ?Hn, ?Hl by lia; simpl;
    rewrite ?andb_false_r; reflexivity.
Qed.

(** Text with such a byte in it is not white space. *)
Lemma all_space_text (v : string) (c : ascii) (w : string) :
  text_byte c = true → Py.all_space (v +:+ String c w) = false.
Proof.
  intros (H1 & H2 & H3 & H4 & H5 & H6)%text_byte_spaces.
  induction v as [|a|a d IH|a d e r IH1 IH2 IH3] using string_ind3.
  - simpl. rewrite H1. destruct w as [|d [|e r]]; by rewrite ?H3, ?H6.
  - simpl. rewrite H2. destruct (Py.space1 a); [|destruct w; by rewrite ?H5].
    rewrite H1. destruct w as [|d [|e r]]; by rewrite ?H3, ?H6.
  - simpl in *. destruct (Py.space1 a); [exact IH|].
    destruct (Py.space2 a d).
    + rewrite H1. destruct w as [|d' [|e r]]; by rewrite ?H3, ?H6.
    + by rewrite H4.
  - simpl in *. destruct (Py.space1 a); [exact IH1|].
    destruct (Py.space2 a d); [exact IH2|].
    destruct (Py.space3 a d e); [exact IH3 | done].
Qed.

Lemma rstrip_text (u : string) (c : ascii) (w : string) :
  text_byte c = true →
  Py.rstrip (u +:+ String c w) = u +:+ String c (Py.rstrip w).
Proof.
  intros Hc. induction u as [|a u IH].
  - change (Py.rstrip ("" +:+ String c w))
      with (if Py.all_space ("" +:+ String c w) then ""
            else String c (Py.rstrip w)).
    by rewrite all_space_text.
  - change (Py.rstrip (String a u +:+ String c w))
      with (if Py.all_space (String a u +:+ String c w) then ""
            else String a (Py.rstrip (u +:+ String c w))).
    rewrite all_space_text by done. by rewrite IH.
Qed.

(** ** The table of types *)

Lemma getitem_cases (d : list (string * string)) (key : string) :
  (∃ v, getitem d key = returned v ∧ (key, v) ∈ d) ∨
  (getitem d key = raised (KeyError key) ∧ ∀ v, (key, v) ∉ d).
Proof.
  induction d as [|[k v] d IH]; simpl.
  - right. split; [done|]. intros v Hv. by inversion Hv.
  - destruct (String.eqb_spec k key) as [-> | Hne].
    + left. exists v. split; [done | by left].
    + destruct IH as [(w & E & Hw) | (E & Hw)].
      * left. exists w. split; [done | by right].
      * right. split; [done|]. intros w [[= ? ?] | Hin]%elem_of_cons;
          [done | by eapply Hw].
Qed.

(** ** [add_field], case by case *)

Lemma add_field_cases (self : FieldGeneratorGUI) :
  (∃ message,
     (Py.strip (field_name_var self) = "" ∨ field_type_var self = "") ∧
     add_field self = returned (show (showerror "错误" message) self)) ∨
  (Py.strip (field_name_var self) ≠ "" ∧ field_type_var self ≠ "" ∧
   (∀ t, (field_type_var self, t) ∉ field_types) ∧
   add_field self = raised (KeyError (field_type_var self))) ∨
  (∃ t,
     Py.strip (field_name_var self) ≠ "" ∧ field_type_var self ≠ "" ∧
     (field_type_var self, t) ∈ field_types ∧
     add_field self
     = returned
         (show (showinfo "成功" ("字段 '" +:+ name (field_of_form self t)
                                 +:+ "' 已添加"))
            (clear_inputs
               (append_field (field_of_form self t)
                  (display_text (field_of_form self t)) self)))).
Proof.
  unfold add_field.
  destruct (Py.strip (field_name_var self)) as [|c n] eqn:En.
  { left. eexists. split; [by left | done]. }
  destruct (field_type_var self) as [|c' l] eqn:El.
  { left. eexists. split; [by right | done]. }
  right.
  destruct (getitem_cases field_types (String c' l)) as [(t & E & Ht) | (E & Ht)];
    rewrite E.
  - right. exists t. split_and!; [done..|].
    unfold field_of_form, display_text. rewrite En. reflexivity.
  - left. by split_and!.
Qed.

(** ** The handlers, case by case *)

Lemma generate_code_cases (self : FieldGeneratorGUI) :
  (fields self = [] ∧
   generate_code self = returned (show (showwarning "警告" "请先添加字段") self)) ∨
  (fields self ≠ [] ∧
   ∃ decls,
     Forall2 (λ f d, generate_field_code f = returned d) (fields self) decls ∧
     generate_code self
     = returned
         (show (showinfo "成功" "代码生成完成！")
            (set_code_text
               (Py.join newline
                  (Py.sorted (elements (collect_imports (fields self)))
                   ++ class_header ++ map (λ d, "    " +:+ d) decls))
               self))).
Proof.
  unfold generate_code.
  destruct (fields self) as [|f fs] eqn:Ef.
  { left. split; reflexivity. }
  right. split; [discriminate|].
  destruct (build_code_lines_returns (f :: fs)) as (decls & HF & E).
  exists decls. split; [exact HF|]. rewrite E. reflexivity.
Qed.

Lemma remove_field_cases (selection : list nat) (self : FieldGeneratorGUI) :
  (selection = [] ∧
   remove_field selection self
   = inr (show (showwarning "警告" "请选择要删除的字段") self)) ∨
  (∃ index rest,
     selection = index :: rest ∧ length (fields self) ≤ index ∧
     remove_field selection self = inl list_index_out_of_range) ∨
  (∃ index rest f,
     selection = index :: rest ∧ fields self !! index = Some f ∧
     remove_field selection self
     = inr (show (showinfo "成功" ("字段 '" +:+ name f +:+ "' 已删除"))
              (delete_field index self))).
Proof.
  destruct selection as [|index rest]; [by left|]. right. simpl.
  destruct (fields self !! index) as [f|] eqn:E.
  - right. by exists index, rest, f.
  - left. exists index, rest. split_and!; [done | by apply lookup_ge_None | done].
Qed.

Lemma copy_code_window (self : FieldGeneratorGUI) (clipboard : string) :
  ∃ d, (copy_code self clipboard).1 = show d self.
Proof.
  unfold copy_code. destruct (Py.strip (code_text_get self)); by eexists.
Qed.

Lemma map_delete {A B} (g : A → B) (i : nat) (l : list A) :
  map g (delete i l) = delete i (map g l).
Proof.
  revert i. induction l as [|x l IH]; intros [|i]; simpl; [done..|].
  by rewrite IH.
Qed.

(** ** What the handlers keep *)

(** X7.  The list box stays in step with the field list: it is so in the
    window as created, and every handler that returns keeps it so, each
    line being the name, the type and the optional and primary key marks of
    its descriptor. *)
Theorem list_box_in_step :
  in_step empty_window ∧
  ∀ self, in_step self →
    (∀ self', add_field self = returned self' → in_step self') ∧
    (∀ selection self', remove_field selection self = inr self' → in_step self') ∧
    (∀ answer, in_step (clear_all answer self)) ∧
    (∀ self', generate_code self = returned self' → in_step self') ∧
    in_step (on_type_change self) ∧
    (∀ clipboard, in_step (copy_code self clipboard).1).
Proof.
  split; [reflexivity|]. unfold in_step. intros self Hs. split_and!.
  - intros self' E.
    destruct (add_field_cases self)
      as [(m & _ & E') | [(_ & _ & _ & E') | (t & _ & _ & _ & E')]];
      rewrite E' in E; [| discriminate |]; injection E as <-; simpl; [done|].
    by rewrite map_app, Hs.
  - intros selection self' E.
    destruct (remove_field_cases selection self)
      as [(_ & E') | [(i & r & _ & _ & E') | (i & r & f & _ & _ & E')]];
      rewrite E' in E; [| discriminate |]; injection E as <-; simpl; [done|].
    by rewrite map_delete, Hs.
  - intros [|]; simpl; done.
  - intros self' E.
    destruct (generate_code_cases self) as [(_ & E') | (_ & decls & _ & E')];
      rewrite E' in E; injection E as <-; exact Hs.
  - unfold on_type_change. by destruct (Py.contains _ _).
  - intros clipboard. destruct (copy_code_window self clipboard) as (d & ->).
    done.
Qed.

Lemma stored_ok_field_of_form (self : FieldGeneratorGUI) (t : string) :
  Py.strip (field_name_var self) ≠ "" →
  (field_type_var self, t) ∈ field_types →
  stored_ok (field_of_form self t).
Proof.
  intros Hn Ht. unfold stored_ok. split_and!.
  - exact Hn.
  - exact (strip_idem _).
  - change (t ∈ map snd field_types).
    apply list_elem_of_In, in_map_iff. exists (field_type_var self, t).
    split; [done | by apply list_elem_of_In].
  - intros o Ho E. simpl in Ho. set_unfold in Ho.
    assert (Hs : ∀ x, strip_or_None x ≠ Some "").
    { intros x. unfold strip_or_None. by destruct (Py.strip x). }
    destruct Ho as [-> | [-> | [-> | [-> | [->|[]]]]]]; by eapply Hs.
Qed.

(** X8.  Every descriptor in the field list is as [add_field] makes them:
    a name with text and without white space at either end, one of the
    twelve type texts of the table, and entries that are [None] or hold
    text, never an empty string.  The window as created has no descriptor,
    and no handler breaks this. *)
Theorem fields_stored_ok :
  Forall stored_ok (fields empty_window) ∧
  ∀ self, Forall stored_ok (fields self) →
    (∀ self', add_field self = returned self' → Forall stored_ok (fields self')) ∧
    (∀ selection self', remove_field selection self = inr self' →
                        Forall stored_ok (fields self')) ∧
    (∀ answer, Forall stored_ok (fields (clear_all answer self))) ∧
    (∀ self', generate_code self = returned self' →
              Forall stored_ok (fields self')) ∧
    Forall stored_ok (fields (on_type_change self)) ∧
    (∀ clipboard, Forall stored_ok (fields (copy_code self clipboard).1)).
Proof.
  split; [constructor|]. intros self Hs. split_and!.
  - intros self' E.
    destruct (add_field_cases self)
      as [(m & _ & E') | [(_ & _ & _ & E') | (t & Hn & _ & Ht & E')]];
      rewrite E' in E; [| discriminate |]; injection E as <-; simpl; [done|].
    apply Forall_app. split; [done|]. constructor; [|constructor].
    by apply stored_ok_field_of_form.
  - intros selection self' E.
    destruct (remove_field_cases selection self)
      as [(_ & E') | [(i & r & _ & _ & E') | (i & r & f & _ & _ & E')]];
      rewrite E' in E; [| discriminate |]; injection E as <-; simpl; [done|].
    by apply Forall_delete.
  - intros [|]; simpl; [constructor | done].
  - intros self' E.
    destruct (generate_code_cases self) as [(_ & E') | (_ & decls & _ & E')];
      rewrite E' in E; injection E as <-; exact Hs.
  - unfold on_type_change. by destruct (Py.contains _ _).
  - intros clipboard. destruct (copy_code_window self clipboard) as (d & ->).
    done.
Qed.

(** ** Removing a field *)

(** X9.  With the first selected index on a descriptor, [remove_field]
    takes that descriptor out of the field list and the line at the same
    index out of the list box, whatever else is selected; the descriptors
    before it keep their index, those after it move up by one, the box
    names the removed field, and the output pane keeps the old text. *)
Theorem remove_field_removes (index : nat) (rest : list nat)
    (self : FieldGeneratorGUI) (f : field_info) :
  fields self !! index = Some f →
  ∃ self',
    remove_field (index :: rest) self = inr self' ∧
    fields self' = delete index (fields self) ∧
    field_listbox self' = delete index (field_listbox self) ∧
    S (length (fields self')) = length (fields self) ∧
    (∀ j, j < index → fields self' !! j = fields self !! j) ∧
    (∀ j, index ≤ j → fields self' !! j = fields self !! S j) ∧
    messagebox self'
    = messagebox self ++ [showinfo "成功" ("字段 '" +:+ name f +:+ "' 已删除")] ∧
    code_text self' = code_text self.
Proof.
  intros Hf. eexists. split.
  - simpl. rewrite Hf. reflexivity.
  - simpl. split_and!; try reflexivity.
    + rewrite length_delete by eauto.
      apply lookup_lt_Some in Hf. lia.
    + intros j Hj. by apply list_lookup_delete_lt.
    + intros j Hj. by apply list_lookup_delete_ge.
Qed.

Lemma remove_field_removes_witness :
  ∃ self',
    remove_field [0] age_listed = inr self' ∧
    fields self' = [status] ∧
    field_listbox self' = ["status (Enum)"] ∧
    messagebox self' = [showinfo "成功" ("字段 '" +:+ "age" +:+ "' 已删除")].
Proof.
  destruct (remove_field_removes 0 [] age_listed age eq_refl)
    as (self' & E & Hf & Hl & _ & _ & _ & Hm & _).
  exists self'. by split_and!.
Defined.

(** X10.  [remove_field] raises IndexError exactly when the first selected
    index is past the end of the field list; with the list box in step and
    the index on one of its lines it returns; with nothing selected it
    only warns and changes nothing else. *)
Theorem remove_field_edges (self : FieldGeneratorGUI) :
  remove_field [] self
  = inr (show (showwarning "警告" "请选择要删除的字段") self) ∧
  (∀ index rest,
     remove_field (index :: rest) self = inl list_index_out_of_range ↔
     length (fields self) ≤ index) ∧
  (in_step self →
   ∀ index rest, index < length (field_listbox self) →
     ∃ self', remove_field (index :: rest) self = inr self').
Proof.
  split_and!.
  - reflexivity.
  - intros index rest. simpl. rewrite <- lookup_ge_None.
    destruct (fields self !! index); split; done.
  - intros Hs index rest Hlt. rewrite Hs, length_map in Hlt.
    apply lookup_lt_is_Some in Hlt as [f Hf].
    simpl. rewrite Hf. eauto.
Qed.

(** X11.  Adding a field and then removing the last line undoes the
    addition: on a window whose list box is in step, the field list and the
    list box are again what they were. *)
Theorem add_then_remove (self self1 : FieldGeneratorGUI) :
  in_step self →
  Py.strip (field_name_var self) ≠ "" → field_type_var self ≠ "" →
  add_field self = returned self1 →
  ∃ self2,
    remove_field [length (fields self)] self1 = inr self2 ∧
    fields self2 = fields self ∧
    field_listbox self2 = field_listbox self.
Proof.
  intros Hs Hn Hl E.
  destruct (add_field_cases self)
    as [(m & [|] & _) | [(_ & _ & _ & E') | (t & _ & _ & _ & E')]];
    [done | done | congruence |].
  rewrite E' in E. injection E as <-.
  eexists. split.
  - simpl. rewrite list_lookup_middle by done. reflexivity.
  - simpl. split.
    + etrans; [apply (delete_middle _ []) | apply app_nil_r].
    + assert (Hlen : length (fields self) = length (field_listbox self))
        by (by rewrite Hs, length_map).
      rewrite Hlen. etrans; [apply (delete_middle _ []) | apply app_nil_r].
Qed.

Lemma add_then_remove_witness :
  ∃ self1 self2,
    add_field age_form = returned self1 ∧
    remove_field [0] self1 = inr self2 ∧
    fields self2 = [] ∧ field_listbox self2 = [].
Proof.
  eexists.
  destruct (add_then_remove age_form _ eq_refl ltac:(discriminate)
              ltac:(discriminate) eq_refl) as (self2 & E & Hf & Hb).
  exists self2. by split_and!.
Defined.

(** ** Clearing and copying *)

(** X12.  [clear_all] answered no changes nothing.  Answered yes it
    empties the field list, the list box, the output pane and the form and
    keeps the boxes shown; after it [generate_code] refuses with
    empty-input and [copy_code] warns that there is nothing to copy and
    leaves the clipboard alone. *)
Theorem clear_all_then (self : FieldGeneratorGUI) (clipboard : string) :
  clear_all false self = self ∧
  fields (clear_all true self) = [] ∧
  field_listbox (clear_all true self) = [] ∧
  code_text (clear_all true self) = "" ∧
  messagebox (clear_all true self) = messagebox self ∧
  (∃ self', generate_code (clear_all true self) = returned self' ∧
            refuses (clear_all true self) self' empty_input) ∧
  copy_code (clear_all true self) clipboard
  = (show (showwarning "警告" "没有可复制的代码") (clear_all true self), clipboard).
Proof.
  split_and!; try reflexivity.
  eexists. split; [reflexivity|]. eexists. by split.
Qed.

(** X13.  When the name has text and the type text is not empty and is no
    label of the table, [add_field] raises KeyError with that text, before
    anything is stored or shown. *)
Theorem add_field_unknown_type (self : FieldGeneratorGUI) :
  Py.strip (field_name_var self) ≠ "" →
  field_type_var self ≠ "" →
  (∀ t, (field_type_var self, t) ∉ field_types) →
  add_field self = raised (KeyError (field_type_var self)).
Proof.
  intros Hn Hl Hk.
  destruct (add_field_cases self)
    as [(m & [|] & _) | [(_ & _ & _ & E') | (t & _ & _ & Ht & _)]];
    [done | done | done |].
  by destruct (Hk t).
Qed.

Lemma add_field_unknown_type_witness :
  add_field unlabelled_form = raised (KeyError "int").
Proof.
  apply (add_field_unknown_type unlabelled_form); [discriminate..|].
  intros t Ht. unfold field_types in Ht. simpl in Ht. set_unfold in Ht.
  repeat destruct Ht as [Ht | Ht]; try discriminate Ht. done.
Defined.

Lemma append_assoc (a b c : string) : (a +:+ b) +:+ c = a +:+ b +:+ c.
Proof. induction a as [|x a IH]; simpl; [done | by rewrite IH]. Qed.

Lemma concat_first (sep : string) (c : ascii) (r : string) (l : list string) :
  ∃ r', String.concat sep (String c r :: l) = String c r'.
Proof. destruct l; simpl; eauto. Qed.

Lemma concat_last (sep : string) (l : list string) (y : string) :
  ∃ u, String.concat sep (l ++ [y]) = u +:+ y.
Proof.
  induction l as [|x l (u & IH)].
  - by exists "".
  - exists (x +:+ sep +:+ u).
    change (String.concat sep ((x :: l) ++ [y]))
      with (match l ++ [y] with
            | [] => x
            | _ => x +:+ sep +:+ String.concat sep (l ++ [y])
            end).
    destruct (l ++ [y]) eqn:E; [by destruct l|].
    by rewrite IH, !append_assoc.
Qed.

(** Every declaration ends with the closing bracket of its call. *)
Lemma declaration_end (f : field_info) (d : string) :
  generate_field_code f = returned d → ∃ u, d = u +:+ ")".
Proof.
  destruct (generate_field_code_returns f) as (ps & _ & E).
  rewrite E. intros [= <-].
  set (ann := if optional f then "Optional[" +:+ type f +:+ "]" else type f).
  destruct ps as [|p ps].
  - exists (name f +:+ ": " +:+ ann +:+ " = Field(").
    rewrite !append_assoc. reflexivity.
  - exists (name f +:+ ": " +:+ ann +:+ " = Field(" +:+ Py.join ", " (p :: ps)).
    rewrite !append_assoc. reflexivity.
Qed.

(** Every import line starts with a letter. *)
Lemma import_line_head (fs : list field_info) (x : string) :
  x ∈ Py.sorted (elements (collect_imports fs)) →
  ∃ c r, x = String c r ∧ text_byte c = true.
Proof.
  destruct (sorted_elements (collect_imports fs)) as (Hin & _).
  rewrite Hin, collect_imports_base, !elem_of_union, !elem_of_singleton,
    elem_of_fold_add_import.
  intros [[-> | ->] | (f & _ & Hx)]; [by eexists _, _ ..|].
  apply add_import_elem in Hx
    as [[-> _] | [[-> _] | [[-> _] | [-> _]]]]; by eexists _, _.
Qed.

Lemma strip_text (c : ascii) (r u : string) :
  text_byte c = true → String c r = u +:+ ")" →
  Py.strip (String c r +:+ newline) = String c r.
Proof.
  intros Hc Hu. unfold Py.strip.
  rewrite lstrip_id.
  - rewrite Hu, append_assoc. change (")" +:+ newline) with (String ")" newline).
    by rewrite rstrip_text.
  - apply text_byte_spaces in Hc as (H1 & _ & H3 & _ & _ & H6).
    simpl. rewrite H1. destruct (r +:+ newline) as [|d [|e r']];
      by rewrite ?H3, ?H6.
Qed.

(** The generated text starts with a letter and ends with a bracket. *)
Lemma generated_text_shape (fs : list field_info) (decls : list string) :
  fs ≠ [] →
  Forall2 (λ f d, generate_field_code f = returned d) fs decls →
  ∃ c r u,
    Py.join newline
      (Py.sorted (elements (collect_imports fs))
       ++ class_header ++ map (λ d, "    " +:+ d) decls)
    = String c r ∧
    text_byte c = true ∧ String c r = u +:+ ")".
Proof.
  intros Hne HF.
  assert (Hlast : ∃ ds d u, decls = ds ++ [d] ∧ d = u +:+ ")").
  { destruct decls as [|d0 ds0] using rev_ind.
    - apply Forall2_nil_inv_r in HF. done.
    - apply Forall2_app_inv_r in HF as (fs1 & fs2 & _ & HF2 & _).
      apply Forall2_cons_inv_r in HF2 as (f & fs3 & Hf & _ & _).
      destruct (declaration_end f d0 Hf) as (u & ->). by eexists _, _, _. }
  destruct Hlast as (ds & d & u & -> & ->).
  pose proof (import_line_head fs) as Hhead.
  destruct (sorted_elements (collect_imports fs)) as (Hin & _).
  assert (Hbase : typing_optional ∈ Py.sorted (elements (collect_imports fs))).
  { apply Hin. rewrite collect_imports_base. set_solver. }
  destruct (Py.sorted (elements (collect_imports fs))) as [|x L];
    [by inversion Hbase|].
  destruct (Hhead x ltac:(by left)) as (c & r0 & -> & Hc).
  unfold Py.join. set (g := λ d : string, "    " +:+ d).
  assert (Hre : (String c r0 :: L) ++ class_header ++ map g (ds ++ [u +:+ ")"])
                = ((String c r0 :: L) ++ class_header ++ map g ds)
                  ++ [g (u +:+ ")")]).
  { rewrite map_app. simpl (map g [_]). by rewrite <- !app_assoc. }
  destruct (concat_first newline c r0
              (L ++ class_header ++ map g (ds ++ [u +:+ ")"]))) as (r & Er).
  destruct (concat_last newline
              ((String c r0 :: L) ++ class_header ++ map g ds)
              (g (u +:+ ")"))) as (v & Ev).
  exists c, r, (v +:+ "    " +:+ u).
  split; [exact Er|]. split; [exact Hc|].
  transitivity (String.concat newline
                  (((String c r0 :: L) ++ class_header ++ map g ds)
                   ++ [g (u +:+ ")")])).
  { rewrite <- Hre. symmetry. exact Er. }
  rewrite Ev. unfold g. by rewrite !append_assoc.
Qed.

Lemma copy_code_text (self : FieldGeneratorGUI) (clipboard : string)
    (c : ascii) (r u : string) :
  code_text self = String c r →
  text_byte c = true → String c r = u +:+ ")" →
  copy_code self clipboard
  = (show (showinfo "成功" "代码已复制到剪贴板") self, code_text self).
Proof.
  intros Et Hc Hu. unfold copy_code, code_text_get.
  rewrite Et, (strip_text c r u Hc Hu). reflexivity.
Qed.

(** X14.  After [generate_code] on a list with a field, [copy_code] puts
    on the clipboard the generated text itself: it starts with an import
    and ends with the bracket of the last declaration, so stripping the
    pane takes away the final newline of Tk and nothing of the code, and
    what was on the clipboard is replaced. *)
Theorem copy_generated (self self' : FieldGeneratorGUI) (clipboard : string) :
  fields self ≠ [] →
  generate_code self = returned self' →
  copy_code self' clipboard
  = (show (showinfo "成功" "代码已复制到剪贴板") self', code_text self').
Proof.
  intros Hne E.
  destruct (generate_code_cases self) as [(Hnil & _) | (_ & decls & HF & E')];
    [done|].
  destruct (generated_text_shape (fields self) decls Hne HF)
    as (c & r & u & Et & Hc & Hu).
  assert (Hs : self' =
            show (showinfo "成功" "代码生成完成！")
              (set_code_text
                 (Py.join newline
                    (Py.sorted (elements (collect_imports (fields self)))
                     ++ class_header ++ map (λ d, "    " +:+ d) decls))
                 self)) by congruence.
  rewrite Hs.
  apply (copy_code_text _ clipboard c r u); [exact Et | exact Hc | exact Hu].
Qed.

Lemma copy_generated_witness :
  ∃ self',
    generate_code age_listed = returned self' ∧
    copy_code self' "old" = (show (showinfo "成功" "代码已复制到剪贴板") self',
                             code_text self').
Proof.
  destruct (generate_code_cases age_listed) as [(Hnil & _) | (_ & decls & _ & E)];
    [discriminate Hnil|].
  eexists. split; [exact E|].
  apply (copy_generated age_listed); [discriminate | exact E].
Defined.

(** ** The entry for the decimal places *)

(** In the table the label holds the word Decimal exactly for the type
    Decimal. *)
Lemma decimal_label (label t : string) :
  (label, t) ∈ field_types →
  Py.contains "Decimal" label = true ↔ t = "Decimal".
Proof.
  unfold field_types. intros Hin.
  repeat (apply elem_of_cons in Hin as [[= -> ->] | Hin];
          [vm_compute; split; [discriminate || reflexivity
                              | discriminate || reflexivity]|]).
  by inversion Hin.
Qed.

(** X15.  [on_type_change] opens the entry for the decimal places, keeping
    its text, when the chosen label holds the word Decimal, and otherwise
    closes and empties it.  So a field added after choosing a label without
    that word stores no decimal places, whatever the entry held before,
    and is not of type Decimal. *)
Theorem type_change_then_add (self : FieldGeneratorGUI) :
  (Py.contains "Decimal" (field_type_var self) = true →
   on_type_change self
   = config_decimal_entry normal (decimal_places_var self) self) ∧
  (Py.contains "Decimal" (field_type_var self) = false →
   on_type_change self = config_decimal_entry disabled "" self ∧
   ∀ self', add_field (on_type_change self) = returned self' →
     Py.strip (field_name_var self) ≠ "" → field_type_var self ≠ "" →
     ∃ f, fields self' = fields self ++ [f] ∧
          decimal_places f = None ∧ type f ≠ "Decimal").
Proof.
  unfold on_type_change. split; intros Hc; rewrite Hc; [done|].
  split; [done|]. intros self' E Hn Hl.
  destruct (add_field_cases (config_decimal_entry disabled "" self))
    as [(m & [|] & _) | [(_ & _ & _ & E') | (t & _ & _ & Ht & E')]];
    [done | done | congruence |].
  assert (Hs : self' =
            show (showinfo "成功"
                    ("字段 '"
                     +:+ name (field_of_form (config_decimal_entry disabled "" self) t)
                     +:+ "' 已添加"))
              (clear_inputs
                 (append_field
                    (field_of_form (config_decimal_entry disabled "" self) t)
                    (display_text
                       (field_of_form (config_decimal_entry disabled "" self) t))
                    (config_decimal_entry disabled "" self)))) by congruence.
  rewrite Hs. eexists. split; [reflexivity|]. split; [reflexivity|].
  change (t ≠ "Decimal"). intros Ht'.
  change (field_type_var (config_decimal_entry disabled "" self))
    with (field_type_var self) in Ht.
  apply decimal_label in Ht. apply Ht in Ht'. congruence.
Qed.

Lemma type_change_then_add_witness :
  ∃ self' f,
    add_field (on_type_change enum_form) = returned self' ∧
    fields self' = [age; f] ∧ decimal_places f = None ∧ type f ≠ "Decimal".
Proof.
  destruct (type_change_then_add enum_form) as (_ & H).
  destruct (H eq_refl) as (_ & H').
  destruct (H' _ eq_refl ltac:(discriminate) ltac:(discriminate))
    as (f & Hf & Hp & Ht).
  eexists _, f. split; [reflexivity|]. by split_and!.
Defined.

(** ** Stored descriptors in the generated code *)

Lemma stored_ok_present (f : field_info) (o : option string) (v : string) :
  stored_ok f →
  o ∈ [default f; description f; min_value f; max_value f; decimal_places f] →
  o = Some v → present o v.
Proof.
  intros (_ & _ & _ & Hs) Ho ->. split; [done|]. intros ->. by eapply Hs.
Qed.

(** X16.  For a descriptor as the window stores them, every entry that is
    not [None] reaches the declaration: a default as the first token, a
    lower and an upper bound as min_length and max_length on str and as ge
    and le elsewhere, a description as its quoted token. *)
Theorem stored_entries_emitted (f : field_info) :
  stored_ok f →
  ∃ ps, build_field_params f = returned ps ∧
    (∀ v, default f = Some v →
          ∃ tok rest, ps = tok :: rest ∧ default_param v = returned tok) ∧
    (∀ v, min_value f = Some v →
          (if String.eqb (type f) "str" then "min_length=" else "ge=") +:+ v ∈ ps) ∧
    (∀ v, max_value f = Some v →
          (if String.eqb (type f) "str" then "max_length=" else "le=") +:+ v ∈ ps) ∧
    (∀ v, description f = Some v → "description=" +:+ dq +:+ v +:+ dq ∈ ps).
Proof.
  intros Hok.
  destruct (build_field_params_returns f) as (dps & Ed & E).
  exists (dps ++ constraint_params f). split; [done|]. split_and!.
  - intros v Hv. destruct (default_params_returns f) as (dps' & Ed' & Hd).
    rewrite Ed in Ed'. injection Ed' as <-. rewrite Hv in Hd.
    destruct Hd as (tok & -> & Et & _). by exists tok, (constraint_params f).
  - intros v Hv.
    apply (stored_ok_present f _ v Hok) in Hv as [Ht Hs]%present_truthy;
      [|set_solver].
    unfold constraint_params. rewrite Ht, Hs. set_solver.
  - intros v Hv.
    apply (stored_ok_present f _ v Hok) in Hv as [Ht Hs]%present_truthy;
      [|set_solver].
    unfold constraint_params. rewrite Ht, Hs. set_solver.
  - intros v Hv.
    apply (stored_ok_present f _ v Hok) in Hv as [Ht Hs]%present_truthy;
      [|set_solver].
    unfold constraint_params. rewrite Ht, Hs. set_solver.
Qed.

Lemma stored_entries_emitted_witness :
  ∃ ps, build_field_params age = returned ps ∧ "ge=0" ∈ ps ∧ "le=150" ∈ ps.
Proof.
  assert (Hok : stored_ok age).
  { split_and!; [discriminate | reflexivity | | ].
    - vm_compute. set_solver.
    - intros o Ho. simpl in Ho. set_unfold in Ho.
      destruct Ho as [-> | [-> | [-> | [-> | [-> | []]]]]]; discriminate. }
  destruct (stored_entries_emitted age Hok) as (ps & E & _ & Hlo & Hhi & _).
  exists ps. split; [exact E|]. split; [exact (Hlo "0" eq_refl) | exact (Hhi "150" eq_refl)].
Defined.
